(** * Book management service (src/main.py)

    A shallow embedding of the five FastAPI endpoints of [main.py] and of
    the SQLAlchemy session they drive, followed by the properties of the
    service.

    What is modelled, and how:
    - the table [books] is a finite map from the primary key [id] to the
      other two columns; the store hands out ids from a counter
      (AUTO_INCREMENT);
    - [Book] instances are Python objects: they live in a heap owned by
      the session and the endpoints hold references to them, so that
      [db.commit()] and [db.refresh(db_book)] change the very object the
      endpoint returns;
    - an endpoint is a computation in a state-and-exception monad over
      the session; [raise HTTPException(...)] is the exception;
    - the calls made on the session are recorded in the order they are
      made, so that "no persistence operation was invoked" can be said;
    - the store is taken under normal operation: every statement reaches
      it and succeeds, and the capacity of the columns ([String(255)],
      the range of [Integer]) is not a limit. *)

From stdpp Require Import gmap strings list fin_maps pretty.
From Stdlib Require Import ZArith Ascii.

#[local] Set Warnings "-register-all".
#[local] Open Scope Z_scope.

(** ** Data model *)

(** [class Book(Base)]: the attributes of a mapped instance.  [id] is
    [None] until the row has been inserted. *)
Module Book.
Record t : Type := mk { id : option Z; title : string; author : string }.
End Book.

(** [class BookCreate(BaseModel)]: a validated request body. *)
Module BookCreate.
Record t : Type := mk { title : string; author : string }.
End BookCreate.

(** [class BookOut(BookCreate)]: the response shape, [BookCreate] plus [id]. *)
Module BookOut.
Record t : Type := mk { title : string; author : string; id : Z }.
End BookOut.

(** A parsed JSON document, as the framework hands it to validation. *)
Inductive json : Type :=
  | JNull
  | JBool (b : bool)
  | JNumber (n : Z)
  | JString (s : string)
  | JArray (l : list json)
  | JObject (o : gmap string json).

(** ** The store and the session *)

(** The methods of [Session] that the endpoints call. *)
Inductive Call : Type :=
  | query_all_call
  | query_first_call (book_id : Z)
  | add_call
  | delete_call
  | commit_call
  | refresh_call.

(** The database behind [engine]: the rows of [books] keyed by [id], the
    next id to hand out, and the session calls it has served so far. *)
Record Database : Type := mkDatabase {
  books : gmap Z (string * string);
  auto_increment : Z;
  calls : list Call
}.

(** The table right after [Base.metadata.create_all] on a new database. *)
Definition empty_db : Database := mkDatabase ∅ 1 [].

(** Where a mapped instance stands with respect to its session. *)
Inductive ObjState : Type :=
  | Transient      (* built by [Book(...)], unknown to the session *)
  | Pending        (* [db.add]ed, not yet inserted *)
  | Persistent     (* has a row *)
  | Deleted        (* [db.delete]d, row not yet removed *)
  | Detached.      (* row removed *)

Record Instance : Type := mkInstance {
  attrs : Book.t;
  state : ObjState;
  dirty : bool      (* an attribute was assigned since the last flush *)
}.

(** [db = SessionLocal()]: the database it talks to and the objects
    created while it is open.  A reference to an object is its position
    in [heap]. *)
Record Session : Type := mkSession {
  db : Database;
  heap : list Instance
}.

(** [SessionLocal()]: a session with no object yet. *)
Definition SessionLocal (d : Database) : Session := mkSession d [].

(** [db.close()]: the objects go, and with them whatever was not
    committed; the database stays. *)
Definition close (s : Session) : Database := db s.

(** ** Exceptions and the endpoint monad *)

Inductive Exception : Type :=
  | HTTPException (status_code : Z) (detail : string)
  | ServerError.   (* any other exception: reported as a 500 *)

Inductive Result (A : Type) : Type :=
  | Ok (a : A)
  | Raise (e : Exception).
Arguments Ok {A} a.
Arguments Raise {A} e.

Definition M (A : Type) : Type := Session → Result A * Session.

#[global] Instance M_ret : MRet M := λ A a s, (Ok a, s).
#[global] Instance M_bind : MBind M := λ A B f m s,
  match m s with
  | (Ok a, s') => f a s'
  | (Raise e, s') => (Raise e, s')
  end.

Definition raise {A : Type} (e : Exception) : M A := λ s, (Raise e, s).
Definition get_session : M Session := λ s, (Ok s, s).

Notation "m1 ;; m2" := (mbind (λ _, m2) m1)
  (at level 100, m2 at level 200, right associativity).

(** ** Session primitives *)

Definition log (c : Call) : M unit := λ s,
  (Ok (), mkSession (mkDatabase (books (db s)) (auto_increment (db s))
                                (calls (db s) ++ [c]))
                    (heap s)).

Definition alloc (o : Instance) : M nat := λ s,
  (Ok (length (heap s)), mkSession (db s) (heap s ++ [o])).

Definition deref (h : nat) : M Instance := λ s,
  match heap s !! h with
  | Some o => (Ok o, s)
  | None => (Raise ServerError, s)
  end.

Definition assign (h : nat) (o : Instance) : M unit := λ s,
  (Ok (), mkSession (db s) (<[h := o]> (heap s))).

Definition put_books (t : gmap Z (string * string)) : M unit := λ s,
  (Ok (), mkSession (mkDatabase t (auto_increment (db s)) (calls (db s)))
                    (heap s)).

(** The store assigns the id of a new row. *)
Definition next_id : M Z := λ s,
  (Ok (auto_increment (db s)),
   mkSession (mkDatabase (books (db s)) (auto_increment (db s) + 1)
                         (calls (db s)))
             (heap s)).

(** [Book(title=..., author=...)] *)
Definition Book (title author : string) : M nat :=
  alloc (mkInstance (Book.mk None title author) Transient false).

(** An instance loaded from the row [(k, row)]. *)
Definition loaded (k : Z) (row : string * string) : Instance :=
  mkInstance (Book.mk (Some k) row.1 row.2) Persistent false.

(** [db.query(Book).all()] *)
Fixpoint load_all (rows : list (Z * (string * string))) : M (list nat) :=
  match rows with
  | [] => mret []
  | (k, row) :: rows' =>
      h ← alloc (loaded k row);
      hs ← load_all rows';
      mret (h :: hs)
  end.

Definition query_all : M (list nat) :=
  log query_all_call;;
  s ← get_session;
  load_all (map_to_list (books (db s))).

(** [db.query(Book).filter(Book.id == book_id).first()] *)
Definition query_first (book_id : Z) : M (option nat) :=
  log (query_first_call book_id);;
  s ← get_session;
  match books (db s) !! book_id with
  | Some row => h ← alloc (loaded book_id row); mret (Some h)
  | None => mret None
  end.

(** [db.add(obj)] *)
Definition db_add (h : nat) : M unit :=
  log add_call;;
  o ← deref h;
  match state o with
  | Transient => assign h (mkInstance (attrs o) Pending (dirty o))
  | _ => mret ()
  end.

(** [db.delete(obj)] *)
Definition db_delete (h : nat) : M unit :=
  log delete_call;;
  o ← deref h;
  match state o with
  | Persistent => assign h (mkInstance (attrs o) Deleted (dirty o))
  | _ => raise ServerError
  end.

(** [obj.title = v] and [obj.author = v] *)
Definition set_title (h : nat) (v : string) : M unit :=
  o ← deref h;
  assign h (mkInstance (Book.mk (Book.id (attrs o)) v (Book.author (attrs o)))
                       (state o) true).

Definition set_author (h : nat) (v : string) : M unit :=
  o ← deref h;
  assign h (mkInstance (Book.mk (Book.id (attrs o)) (Book.title (attrs o)) v)
                       (state o) true).

(** What a flush does for one object: INSERT for a pending one, UPDATE
    for a changed persistent one, DELETE for one marked for deletion. *)
Definition flush_one (h : nat) : M unit :=
  o ← deref h;
  s ← get_session;
  let row := (Book.title (attrs o), Book.author (attrs o)) in
  match state o, Book.id (attrs o) with
  | Pending, _ =>
      k ← next_id;
      put_books (<[k := row]> (books (db s)));;
      assign h (mkInstance (Book.mk (Some k) row.1 row.2) Persistent false)
  | Persistent, Some k =>
      if dirty o then
        match books (db s) !! k with
        | Some _ =>
            put_books (<[k := row]> (books (db s)));;
            assign h (mkInstance (attrs o) Persistent false)
        | None => raise ServerError
        end
      else mret ()
  | Deleted, Some k =>
      put_books (delete k (books (db s)));;
      assign h (mkInstance (attrs o) Detached false)
  | _, _ => mret ()
  end.

Fixpoint flush_from (hs : list nat) : M unit :=
  match hs with
  | [] => mret ()
  | h :: hs' => flush_one h;; flush_from hs'
  end.

(** A transaction: when [m] raises, the rows are as they were before. *)
Definition transaction (m : M unit) : M unit := λ s,
  match m s with
  | (Ok a, s') => (Ok a, s')
  | (Raise e, s') =>
      (Raise e, mkSession (mkDatabase (books (db s)) (auto_increment (db s'))
                                      (calls (db s')))
                          (heap s'))
  end.

(** [db.commit()]: flush every object of the session, then commit. *)
Definition db_commit : M unit :=
  log commit_call;;
  s ← get_session;
  transaction (flush_from (seq 0 (length (heap s)))).

(** [db.refresh(obj)]: reload the attributes from the row of [obj.id]. *)
Definition db_refresh (h : nat) : M unit :=
  log refresh_call;;
  o ← deref h;
  s ← get_session;
  match state o, Book.id (attrs o) with
  | Persistent, Some k =>
      match books (db s) !! k with
      | Some row => assign h (loaded k row)
      | None => raise ServerError
      end
  | _, _ => raise ServerError
  end.

(** ** The endpoints of main.py *)

Definition not_found : Exception := HTTPException 404 "Book not found".

(** [get_books], lines 43-46. *)
Definition get_books : M (list nat) :=
  books ← query_all;
  mret books.

(** [get_book], lines 48-53. *)
Definition get_book (book_id : Z) : M nat :=
  book ← query_first book_id;
  match book with
  | None => raise not_found
  | Some book => mret book
  end.

(** [create_book], lines 55-64. *)
Definition create_book (book : BookCreate.t) : M nat :=
  db_book ← Book (BookCreate.title book) (BookCreate.author book);
  db_add db_book;;
  db_commit;;
  db_refresh db_book;;
  mret db_book.

(** [update_book], lines 66-77. *)
Definition update_book (book_id : Z) (updated_book : BookCreate.t) : M nat :=
  db_book ← query_first book_id;
  match db_book with
  | None => raise not_found
  | Some db_book =>
      set_title db_book (BookCreate.title updated_book);;
      set_author db_book (BookCreate.author updated_book);;
      db_commit;;
      db_refresh db_book;;
      mret db_book
  end.

(** [delete_book], lines 79-87: returns the text of the message. *)
Definition delete_book (book_id : Z) : M string :=
  db_book ← query_first book_id;
  match db_book with
  | None => raise not_found
  | Some db_book =>
      db_delete db_book;;
      db_commit;;
      mret ("Book(id=" +:+ pretty book_id +:+ ") deleted succesfully")
  end.

(** ** The HTTP layer *)

(** A JSON response body. *)
Inductive Content : Type :=
  | book_content (b : BookOut.t)             (* a [BookOut] object *)
  | books_content (l : list BookOut.t)       (* an array of [BookOut] *)
  | message_content (message : string)       (* {"message": ...} *)
  | detail_content (detail : string)         (* {"detail": ...} *)
  | errors_content (locs : list (list string)) (* {"detail": [errors]}, by location *)
  | text_content (text : string).

Record Response : Type := mkResponse { status_code : Z; content : Content }.

(** [response_model=BookOut] with [orm_mode]: the response is read off
    the attributes of the returned object. *)
Definition from_orm (h : nat) : M BookOut.t :=
  o ← deref h;
  match Book.id (attrs o) with
  | Some k => mret (BookOut.mk (Book.title (attrs o)) (Book.author (attrs o)) k)
  | None => raise ServerError
  end.

Fixpoint from_orm_list (hs : list nat) : M (list BookOut.t) :=
  match hs with
  | [] => mret []
  | h :: hs' => b ← from_orm h; bs ← from_orm_list hs'; mret (b :: bs)
  end.

(** One request: [get_db] opens a session on the database, the endpoint
    runs, its result is rendered, and the session is closed whatever
    happened.  What is left is the response and the database. *)
Definition serve {A : Type} (endpoint : M A) (render : A → M Content)
    (d : Database) : Response * Database :=
  match (a ← endpoint; render a) (SessionLocal d) with
  | (Ok c, s) => (mkResponse 200 c, close s)
  | (Raise (HTTPException code detail), s) =>
      (mkResponse code (detail_content detail), close s)
  | (Raise ServerError, s) =>
      (mkResponse 500 (text_content "Internal Server Error"), close s)
  end.

Definition render_book (h : nat) : M Content := b ← from_orm h; mret (book_content b).
Definition render_books (hs : list nat) : M Content :=
  bs ← from_orm_list hs; mret (books_content bs).
Definition render_message (m : string) : M Content := mret (message_content m).

(** The five routes with their parameters already converted. *)
Definition list_books_route : Database → Response * Database :=
  serve get_books render_books.
Definition get_book_route (book_id : Z) : Database → Response * Database :=
  serve (get_book book_id) render_book.
Definition create_book_route (book : BookCreate.t) : Database → Response * Database :=
  serve (create_book book) render_book.
Definition update_book_route (book_id : Z) (updated_book : BookCreate.t)
    : Database → Response * Database :=
  serve (update_book book_id updated_book) render_book.
Definition delete_book_route (book_id : Z) : Database → Response * Database :=
  serve (delete_book book_id) render_message.

(** *** Request validation *)

(** A field declared [str], fed from a JSON body: a JSON string is
    taken as it is, and any other value is an error (pydantic converts
    nothing to [str] unless the model asks for it, and [BookCreate] does
    not). *)
Definition str_validator (v : json) : option string :=
  match v with
  | JString s => Some s
  | _ => None
  end.

(** One field of the body: the location of the error, or the text. *)
Definition str_field (o : gmap string json) (name : string) : list string + string :=
  match o !! name with
  | Some v =>
      match str_validator v with
      | Some s => inr s
      | None => inl ["body"; name]
      end
  | None => inl ["body"; name]
  end.

(** The body against [BookCreate]: all errors, or the validated model. *)
Definition validate_BookCreate (body : option json) : list (list string) + BookCreate.t :=
  match body with
  | Some (JObject o) =>
      match str_field o "title", str_field o "author" with
      | inr t, inr a => inr (BookCreate.mk t a)
      | inl e, inr _ => inl [e]
      | inr _, inl e => inl [e]
      | inl e1, inl e2 => inl [e1; e2]
      end
  | _ => inl [["body"]]
  end.

Definition errors {A : Type} (v : list (list string) + A) : list (list string) :=
  match v with
  | inl es => es
  | inr _ => []
  end.

(** A request that reached one of the five routes: the path segment in
    place of [{book_id}] as text, the body as parsed JSON ([None] when
    there is none). *)
Inductive Request : Type :=
  | GET_books
  | GET_book (segment : string)
  | POST_books (body : option json)
  | PUT_book (segment : string) (body : option json)
  | DELETE_book (segment : string).

Definition unprocessable (es : list (list string)) (d : Database) : Response * Database :=
  (mkResponse 422 (errors_content es), d).

Section App.

(** The conversion of a path segment declared [int] belongs to the
    framework; the service is described for any such conversion. *)
Variable int_validator : string → option Z.

Definition validate_book_id (segment : string) : list (list string) + Z :=
  match int_validator segment with
  | Some z => inr z
  | None => inl [["path"; "book_id"]]
  end.

(** Parameters are validated first, path before body; the endpoint
    runs only when there is no error at all. *)
Definition app (r : Request) (d : Database) : Response * Database :=
  match r with
  | GET_books => list_books_route d
  | GET_book segment =>
      match validate_book_id segment with
      | inr book_id => get_book_route book_id d
      | inl es => unprocessable es d
      end
  | POST_books body =>
      match validate_BookCreate body with
      | inr book => create_book_route book d
      | inl es => unprocessable es d
      end
  | PUT_book segment body =>
      match validate_book_id segment, validate_BookCreate body with
      | inr book_id, inr updated_book => update_book_route book_id updated_book d
      | p, b => unprocessable (errors p ++ errors b) d
      end
  | DELETE_book segment =>
      match validate_book_id segment with
      | inr book_id => delete_book_route book_id d
      | inl es => unprocessable es d
      end
  end.

End App.

(** A conversion to instantiate [app] with: an optional sign, then one
    or more decimal digits. *)
Definition digit_value (c : Ascii.ascii) : option Z :=
  let n := Z.of_nat (Ascii.nat_of_ascii c) in
  if bool_decide (48 ≤ n ≤ 57) then Some (n - 48) else None.

Fixpoint digits_value (acc : Z) (s : string) : option Z :=
  match s with
  | EmptyString => Some acc
  | String c s' =>
      match digit_value c with
      | Some v => digits_value (10 * acc + v) s'
      | None => None
      end
  end.

Definition unsigned_int (s : string) : option Z :=
  match s with
  | EmptyString => None
  | _ => digits_value 0 s
  end.

Definition decimal_int (s : string) : option Z :=
  match s with
  | EmptyString => None
  | String c s' =>
      if Ascii.eqb c "-" then Z.opp <$> unsigned_int s'
      else if Ascii.eqb c "+" then unsigned_int s'
      else unsigned_int s
  end.

(** ** Vocabulary of the properties *)

(** The database after one more session call. *)
Definition called (cs : list Call) (d : Database) : Database :=
  mkDatabase (books d) (auto_increment d) (calls d ++ cs).

(** A row as the response shows it. *)
Definition view (kr : Z * (string * string)) : BookOut.t :=
  BookOut.mk kr.2.1 kr.2.2 kr.1.

Definition ok (c : Content) : Response := mkResponse 200 c.
Definition book_not_found : Response := mkResponse 404 (detail_content "Book not found").

(** *** The invariant of the store *)

(** Every id in the table was handed out before: the next one is new. *)
Definition db_wf (d : Database) : Prop :=
  map_Forall (λ k _, k < auto_increment d) (books d).

#[global] Instance db_wf_dec (d : Database) : Decision (db_wf d).
Proof. unfold db_wf. apply _. Defined.

(** A sequence of requests, served one after the other. *)
Fixpoint serve_all (int_validator : string → option Z) (rs : list Request)
    (d : Database) : Database :=
  match rs with
  | [] => d
  | r :: rs' => serve_all int_validator rs' (app int_validator r d).2
  end.

(** *** Malformed requests *)

(** The words of the specification: a field is present and is text. *)
Definition is_text (v : json) : bool :=
  match v with
  | JString _ => true
  | _ => false
  end.

Definition has_text (body : option json) (name : string) : bool :=
  match body with
  | Some (JObject o) =>
      match o !! name with
      | Some v => is_text v
      | None => false
      end
  | _ => false
  end.

Definition body_well_formed (body : option json) : bool :=
  has_text body "title" && has_text body "author".

Definition parses (int_validator : string → option Z) (segment : string) : bool :=
  match int_validator segment with
  | Some _ => true
  | None => false
  end.

(** A request is malformed when its path id does not parse as an
    integer, or its body lacks a text [title] or a text [author]. *)
Definition malformed (int_validator : string → option Z) (r : Request) : bool :=
  match r with
  | GET_books => false
  | GET_book segment => negb (parses int_validator segment)
  | POST_books body => negb (body_well_formed body)
  | PUT_book segment body =>
      negb (parses int_validator segment) || negb (body_well_formed body)
  | DELETE_book segment => negb (parses int_validator segment)
  end.

(** The store invariant of the specification, with its "non-empty". *)
Definition fields_nonempty (d : Database) : Prop :=
  map_Forall (λ _ row, row.1 ≠ "" ∧ row.2 ≠ "") (books d).

(** *** Sample data *)

Definition dune : BookCreate.t := BookCreate.mk "Dune" "Herbert".
Definition dune2 : BookCreate.t := BookCreate.mk "Dune" "F. Herbert".

(** A database holding the single book [dune] under id 1. *)
Definition dune_db : Database := mkDatabase (<[1 := ("Dune", "Herbert")]> ∅) 2 [].

Definition json_book (title author : json) : option json :=
  Some (JObject (<["title" := title]> (<["author" := author]> ∅))).

(** *** Further vocabulary *)

(** The id a request addresses, when its path carries one that converts. *)
Definition target (int_validator : string → option Z) (r : Request) : option Z :=
  match r with
  | GET_book segment => int_validator segment
  | PUT_book segment _ => int_validator segment
  | DELETE_book segment => int_validator segment
  | GET_books => None
  | POST_books _ => None
  end.

(** The session calls recorded on [d'] after those of [d]. *)
Definition new_calls (d d' : Database) : list Call :=
  drop (length (calls d)) (calls d').

(** Ids start at 1. *)
Definition db_positive (d : Database) : Prop :=
  1 ≤ auto_increment d ∧ map_Forall (λ k _, 1 ≤ k) (books d).

(** [create_book] for each body in turn. *)
Fixpoint create_all (bs : list BookCreate.t) (d : Database) : Database :=
  match bs with
  | [] => d
  | b :: bs' => create_all bs' (create_book_route b d).2
  end.

(** A database holding two books, under ids 1 and 2. *)
Definition two_books_db : Database :=
  mkDatabase (<[2 := ("Emma", "Austen")]> (<[1 := ("Dune", "Herbert")]> ∅)) 3 [].

#[global] Instance Call_eq_dec : EqDecision Call.
Proof. solve_decision. Defined.

(** How many times [db.commit()] occurs among the calls [cs]. *)
Definition commits (cs : list Call) : nat :=
  length (filter (λ c, c = commit_call) cs).

(** The requests whose endpoint writes: POST, PUT and DELETE. *)
Definition writes (r : Request) : bool :=
  match r with
  | GET_books => false
  | GET_book _ => false
  | POST_books _ => true
  | PUT_book _ _ => true
  | DELETE_book _ => true
  end.

(** ** Proof tools *)

Ltac unfold_monad :=
  cbv [mbind mret M_bind M_ret raise get_session log alloc deref
       assign put_books next_id transaction].

Ltac unfold_routes :=
  cbv [list_books_route get_book_route create_book_route update_book_route
       delete_book_route serve render_book render_books render_message
       get_books get_book create_book update_book delete_book query_first
       query_all db_add db_delete db_commit db_refresh set_title set_author
       flush_from flush_one from_orm Book loaded not_found called view ok
       book_not_found SessionLocal close].

(** ** What each route does *)

Lemma get_book_route_found (book_id : Z) (row : string * string) (d : Database) :
  books d !! book_id = Some row →
  get_book_route book_id d =
    (ok (book_content (view (book_id, row))), called [query_first_call book_id] d).
Proof.
  intros Hrow. unfold_routes. unfold_monad. cbn. rewrite Hrow. cbn. reflexivity.
Qed.

Lemma get_book_route_missing (book_id : Z) (d : Database) :
  books d !! book_id = None →
  get_book_route book_id d = (book_not_found, called [query_first_call book_id] d).
Proof.
  intros Hrow. unfold_routes. unfold_monad. cbn. rewrite Hrow. reflexivity.
Qed.

Lemma create_book_route_spec (book : BookCreate.t) (d : Database) :
  let k := auto_increment d in
  let row := (BookCreate.title book, BookCreate.author book) in
  create_book_route book d =
    (ok (book_content (view (k, row))),
     mkDatabase (<[k := row]> (books d)) (k + 1)
                (calls d ++ [add_call; commit_call; refresh_call])).
Proof.
  unfold_routes. unfold_monad. cbn. rewrite lookup_insert_eq. cbn.
  rewrite <- !app_assoc. reflexivity.
Qed.

Lemma update_book_route_found (book_id : Z) (updated_book : BookCreate.t)
    (row : string * string) (d : Database) :
  books d !! book_id = Some row →
  let row' := (BookCreate.title updated_book, BookCreate.author updated_book) in
  update_book_route book_id updated_book d =
    (ok (book_content (view (book_id, row'))),
     mkDatabase (<[book_id := row']> (books d)) (auto_increment d)
                (calls d ++ [query_first_call book_id; commit_call; refresh_call])).
Proof.
  intros Hrow. unfold_routes. unfold_monad. cbn. rewrite Hrow. cbn.
  rewrite Hrow. cbn. rewrite lookup_insert_eq. cbn.
  rewrite <- !app_assoc. reflexivity.
Qed.

Lemma update_book_route_missing (book_id : Z) (updated_book : BookCreate.t)
    (d : Database) :
  books d !! book_id = None →
  update_book_route book_id updated_book d =
    (book_not_found, called [query_first_call book_id] d).
Proof.
  intros Hrow. unfold_routes. unfold_monad. cbn. rewrite Hrow. reflexivity.
Qed.

Lemma delete_book_route_found (book_id : Z) (row : string * string) (d : Database) :
  books d !! book_id = Some row →
  delete_book_route book_id d =
    (ok (message_content ("Book(id=" +:+ pretty book_id +:+ ") deleted succesfully")),
     mkDatabase (delete book_id (books d)) (auto_increment d)
                (calls d ++ [query_first_call book_id; delete_call; commit_call])).
Proof.
  intros Hrow. unfold_routes. unfold_monad. cbn. rewrite Hrow. cbn.
  rewrite <- !app_assoc. reflexivity.
Qed.

Lemma delete_book_route_missing (book_id : Z) (d : Database) :
  books d !! book_id = None →
  delete_book_route book_id d = (book_not_found, called [query_first_call book_id] d).
Proof.
  intros Hrow. unfold_routes. unfold_monad. cbn. rewrite Hrow. reflexivity.
Qed.

(** [all()] creates one object per row, after those already there. *)
Lemma load_all_spec (rows : list (Z * (string * string))) (s : Session) :
  load_all rows s =
    (Ok (seq (length (heap s)) (length rows)),
     mkSession (db s) (heap s ++ map (λ kr, loaded kr.1 kr.2) rows)).
Proof.
  revert s. induction rows as [|[k row] rows IH]; intros s.
  - cbn. rewrite app_nil_r. by destruct s.
  - cbn [load_all]. unfold_monad. rewrite IH. cbn.
    rewrite length_app, Nat.add_1_r, <- app_assoc. reflexivity.
Qed.

(** Rendering these objects gives the rows back, in the same order. *)
Lemma from_orm_list_loaded (rows : list (Z * (string * string)))
    (pre : list Instance) (d : Database) :
  from_orm_list (seq (length pre) (length rows))
      (mkSession d (pre ++ map (λ kr, loaded kr.1 kr.2) rows)) =
    (Ok (map view rows), mkSession d (pre ++ map (λ kr, loaded kr.1 kr.2) rows)).
Proof.
  revert pre. induction rows as [|[k row] rows IH]; intros pre; [done|].
  cbn [length seq map from_orm_list]. unfold from_orm at 1. unfold_monad.
  cbn [heap]. rewrite list_lookup_middle by done. cbn.
  specialize (IH (pre ++ [loaded k row])).
  rewrite length_app, Nat.add_1_r, <- app_assoc in IH. cbn in IH.
  rewrite IH. reflexivity.
Qed.

Lemma list_books_route_spec (d : Database) :
  list_books_route d =
    (ok (books_content (map view (map_to_list (books d)))), called [query_all_call] d).
Proof.
  unfold list_books_route, serve, get_books, query_all, render_books.
  unfold_monad. cbn [db heap]. rewrite load_all_spec. cbn [db heap length].
  rewrite (from_orm_list_loaded _ [] _). reflexivity.
Qed.

(** ** The invariant is kept *)

Lemma db_wf_fresh (d : Database) : db_wf d → books d !! auto_increment d = None.
Proof.
  intros Hwf. destruct (books d !! auto_increment d) as [row|] eqn:Hrow; [|done].
  apply Hwf in Hrow. lia.
Qed.

Lemma db_wf_empty : db_wf empty_db.
Proof. apply map_Forall_empty. Qed.

Lemma db_wf_called (cs : list Call) (d : Database) : db_wf d → db_wf (called cs d).
Proof. done. Qed.

Lemma create_book_route_wf (book : BookCreate.t) (d : Database) :
  db_wf d → db_wf (create_book_route book d).2.
Proof.
  intros Hwf. rewrite create_book_route_spec. cbn. unfold db_wf. cbn.
  apply map_Forall_insert_2; [lia|].
  eapply map_Forall_impl; [exact Hwf|]. cbn. intros. lia.
Qed.

Lemma get_book_route_wf (book_id : Z) (d : Database) :
  db_wf d → db_wf (get_book_route book_id d).2.
Proof.
  intros Hwf. destruct (books d !! book_id) as [row|] eqn:Hrow.
  - by rewrite (get_book_route_found _ _ _ Hrow).
  - by rewrite (get_book_route_missing _ _ Hrow).
Qed.

Lemma update_book_route_wf (book_id : Z) (updated_book : BookCreate.t) (d : Database) :
  db_wf d → db_wf (update_book_route book_id updated_book d).2.
Proof.
  intros Hwf. destruct (books d !! book_id) as [row|] eqn:Hrow.
  - rewrite (update_book_route_found _ _ _ _ Hrow). cbn. unfold db_wf. cbn.
    apply map_Forall_insert_2; [by apply Hwf in Hrow | exact Hwf].
  - by rewrite (update_book_route_missing _ _ _ Hrow).
Qed.

Lemma delete_book_route_wf (book_id : Z) (d : Database) :
  db_wf d → db_wf (delete_book_route book_id d).2.
Proof.
  intros Hwf. destruct (books d !! book_id) as [row|] eqn:Hrow.
  - rewrite (delete_book_route_found _ _ _ Hrow). cbn. unfold db_wf. cbn.
    by apply map_Forall_delete.
  - by rewrite (delete_book_route_missing _ _ Hrow).
Qed.

Lemma list_books_route_wf (d : Database) : db_wf d → db_wf (list_books_route d).2.
Proof. intros Hwf. by rewrite list_books_route_spec. Qed.

Lemma app_wf (int_validator : string → option Z) (r : Request) (d : Database) :
  db_wf d → db_wf (app int_validator r d).2.
Proof.
  intros Hwf. destruct r as [|segment|body|segment body|segment]; cbn.
  - by apply list_books_route_wf.
  - destruct (validate_book_id _ _); [done | by apply get_book_route_wf].
  - destruct (validate_BookCreate _); [done | by apply create_book_route_wf].
  - destruct (validate_book_id _ _), (validate_BookCreate _);
      try done. by apply update_book_route_wf.
  - destruct (validate_book_id _ _); [done | by apply delete_book_route_wf].
Qed.

Lemma serve_all_wf (int_validator : string → option Z) (rs : list Request)
    (d : Database) :
  db_wf d → db_wf (serve_all int_validator rs d).
Proof.
  revert d. induction rs as [|r rs IH]; intros d Hwf; [done|].
  cbn. apply IH. by apply app_wf.
Qed.

(** Whatever requests a new database has served, the invariant holds. *)
Lemma reachable_wf (int_validator : string → option Z) (rs : list Request) :
  db_wf (serve_all int_validator rs empty_db).
Proof. apply serve_all_wf, db_wf_empty. Qed.

(** ** Validation *)

Lemma validate_BookCreate_malformed (body : option json) :
  body_well_formed body = false →
  ∃ es, validate_BookCreate body = inl es ∧ es ≠ [].
Proof.
  unfold body_well_formed, has_text, validate_BookCreate, str_field.
  destruct body as [[| | | | |o]|]; try (intros _; by eexists).
  destruct (o !! "title") as [[]|], (o !! "author") as [[]|]; cbn;
    try discriminate; intros _; by eexists.
Qed.

Lemma validate_BookCreate_well_formed (o : gmap string json) (t a : string) :
  o !! "title" = Some (JString t) →
  o !! "author" = Some (JString a) →
  validate_BookCreate (Some (JObject o)) = inr (BookCreate.mk t a).
Proof.
  intros Ht Ha. unfold validate_BookCreate, str_field. by rewrite Ht, Ha.
Qed.

Lemma validate_book_id_malformed (int_validator : string → option Z) (segment : string) :
  parses int_validator segment = false →
  validate_book_id int_validator segment = inl [["path"; "book_id"]].
Proof.
  unfold parses, validate_book_id. by destruct (int_validator segment).
Qed.

(** ** Decimal text *)

Lemma digits_value_acc (s : string) (acc : Z) :
  digits_value acc s =
    (λ v, acc * 10 ^ Z.of_nat (String.length s) + v) <$> digits_value 0 s.
Proof.
  revert acc. induction s as [|c s IH]; intros acc.
  - cbn. f_equal. lia.
  - cbn [digits_value String.length]. destruct (digit_value c) as [v|]; [|done].
    rewrite IH, (IH (10 * 0 + v)). destruct (digits_value 0 s) as [w|]; [|done].
    cbn. f_equal. rewrite Nat2Z.inj_succ, Z.pow_succ_r by lia. lia.
Qed.

Lemma digit_value_pretty_N_char (n : N) :
  (n < 10)%N → digit_value (pretty_N_char n) = Some (Z.of_N n).
Proof.
  intros Hn.
  assert (n = 0 ∨ n = 1 ∨ n = 2 ∨ n = 3 ∨ n = 4 ∨ n = 5 ∨ n = 6 ∨ n = 7
          ∨ n = 8 ∨ n = 9)%N as Hcases by lia.
  repeat destruct Hcases as [->|Hcases]; try reflexivity. by subst.
Qed.

Lemma digits_value_pretty_N_go (x : N) (s : string) (v : Z) :
  digits_value 0 s = Some v →
  digits_value 0 (pretty_N_go x s) =
    Some (Z.of_N x * 10 ^ Z.of_nat (String.length s) + v).
Proof.
  revert s v. induction (N.lt_wf_0 x) as [x _ IH]; intros s v Hs.
  destruct (decide (x = 0%N)) as [->|Hx].
  - rewrite pretty_N_go_0, Hs. f_equal; lia.
  - rewrite pretty_N_go_step by lia.
    erewrite IH; [| apply N.div_lt; lia |].
    2:{ cbn [digits_value]. rewrite digit_value_pretty_N_char by (apply N.mod_lt; lia).
        rewrite digits_value_acc, Hs. reflexivity. }
    f_equal. cbn [String.length]. rewrite Nat2Z.inj_succ, Z.pow_succ_r by lia.
    rewrite N2Z.inj_div, N2Z.inj_mod. change (Z.of_N 10) with 10.
    generalize (10 ^ Z.of_nat (String.length s)). intros p.
    Z.div_mod_to_equations. nia.
Qed.

Lemma unsigned_int_pretty_pos (p : positive) :
  unsigned_int (pretty (N.pos p)) = Some (Z.pos p) ∧
  ∃ c s, pretty (N.pos p) = String c s ∧ is_Some (digit_value c).
Proof.
  assert (digits_value 0 (pretty (N.pos p)) = Some (Z.pos p)) as Hv.
  { unfold pretty, pretty_N. rewrite decide_False by done.
    rewrite (digits_value_pretty_N_go _ "" 0) by done. f_equal. cbn. lia. }
  destruct (pretty (N.pos p)) as [|c s] eqn:Hp; [by simplify_eq/=|].
  split; [exact Hv|]. exists c, s. split; [done|].
  cbn in Hv. by destruct (digit_value c).
Qed.

(** The decimal text of an integer reads back as that integer. *)
Lemma decimal_int_pretty (z : Z) : decimal_int (pretty z) = Some z.
Proof.
  destruct z as [|p|p]; [done| |].
  - destruct (unsigned_int_pretty_pos p) as (Hv & c & s & Hp & Hc).
    change (pretty (Z.pos p)) with (pretty (N.pos p)). rewrite Hp in *.
    cbn [decimal_int].
    destruct (Ascii.eqb_spec c "-") as [->|_]; [by destruct Hc|].
    destruct (Ascii.eqb_spec c "+") as [->|_]; [by destruct Hc|]. exact Hv.
  - destruct (unsigned_int_pretty_pos p) as (Hv & _).
    change (pretty (Z.neg p)) with (String "-" (pretty (N.pos p))).
    cbn [decimal_int Ascii.eqb]. cbn [Bool.eqb]. by rewrite Hv.
Qed.

(** ** Properties of the service *)

(** C1. For every validated body [b], on every database, the create
    route answers 200 with a [BookOut] [v] carrying the title and author
    of [b], and the get-by-id route asked for [v]'s id right afterwards
    answers 200 with that same [v]. *)
Theorem create_then_get_book (b : BookCreate.t) (d : Database) :
  ∃ v : BookOut.t,
    (create_book_route b d).1 = mkResponse 200 (book_content v) ∧
    BookOut.title v = BookCreate.title b ∧
    BookOut.author v = BookCreate.author b ∧
    (get_book_route (BookOut.id v) (create_book_route b d).2).1 =
      mkResponse 200 (book_content v).
Proof.
  exists (BookOut.mk (BookCreate.title b) (BookCreate.author b) (auto_increment d)).
  rewrite create_book_route_spec. cbn [fst snd]. split_and!; try done.
  erewrite get_book_route_found; [|cbn; apply lookup_insert_eq]. done.
Qed.

(** C2. When no row has the id, get-by-id, update and delete all answer
    404 with detail "Book not found", and none of them changes the rows
    or the id counter; update in particular performs no mutation. *)
Theorem absent_id_not_found (book_id : Z) (b : BookCreate.t) (d : Database) :
  books d !! book_id = None →
  (get_book_route book_id d).1 = mkResponse 404 (detail_content "Book not found") ∧
  (update_book_route book_id b d).1 = mkResponse 404 (detail_content "Book not found") ∧
  (delete_book_route book_id d).1 = mkResponse 404 (detail_content "Book not found") ∧
  books (update_book_route book_id b d).2 = books d ∧
  auto_increment (update_book_route book_id b d).2 = auto_increment d ∧
  books (get_book_route book_id d).2 = books d ∧
  books (delete_book_route book_id d).2 = books d.
Proof.
  intros Hrow.
  rewrite (get_book_route_missing _ _ Hrow), (update_book_route_missing _ _ _ Hrow),
    (delete_book_route_missing _ _ Hrow).
  done.
Qed.

Lemma absent_id_not_found_witness :
  books empty_db !! 9999 = None ∧
  (get_book_route 9999 empty_db).1 = mkResponse 404 (detail_content "Book not found") ∧
  (update_book_route 9999 dune empty_db).1 = mkResponse 404 (detail_content "Book not found") ∧
  (delete_book_route 9999 empty_db).1 = mkResponse 404 (detail_content "Book not found") ∧
  books (update_book_route 9999 dune empty_db).2 = books empty_db ∧
  auto_increment (update_book_route 9999 dune empty_db).2 = auto_increment empty_db ∧
  books (get_book_route 9999 empty_db).2 = books empty_db ∧
  books (delete_book_route 9999 empty_db).2 = books empty_db.
Proof.
  split; [reflexivity|]. apply (absent_id_not_found 9999 dune empty_db). reflexivity.
Defined.

(** C3. When a row has the id, update answers 200 with a [BookOut] that
    keeps the id and carries the new title and author; get-by-id on that
    id afterwards answers the same; the table has the same ids as
    before and every other row is as it was. *)
Theorem update_existing_book (book_id : Z) (b2 : BookCreate.t)
    (row : string * string) (d : Database) :
  books d !! book_id = Some row →
  let v := BookOut.mk (BookCreate.title b2) (BookCreate.author b2) book_id in
  let d' := (update_book_route book_id b2 d).2 in
  (update_book_route book_id b2 d).1 = mkResponse 200 (book_content v) ∧
  (get_book_route book_id d').1 = mkResponse 200 (book_content v) ∧
  dom (books d') = dom (books d) ∧
  (∀ k, k ≠ book_id → books d' !! k = books d !! k).
Proof.
  intros Hrow v d'. subst v d'.
  rewrite (update_book_route_found _ _ _ _ Hrow). cbn [fst snd]. split_and!.
  - done.
  - erewrite get_book_route_found; [|cbn; apply lookup_insert_eq]. done.
  - cbn. apply dom_insert_lookup_L. by exists row.
  - intros k Hk. cbn. by rewrite lookup_insert_ne.
Qed.

Lemma update_existing_book_witness :
  books dune_db !! 1 = Some ("Dune", "Herbert") ∧
  let v := BookOut.mk (BookCreate.title dune2) (BookCreate.author dune2) 1 in
  let d' := (update_book_route 1 dune2 dune_db).2 in
  (update_book_route 1 dune2 dune_db).1 = mkResponse 200 (book_content v) ∧
  (get_book_route 1 d').1 = mkResponse 200 (book_content v) ∧
  dom (books d') = dom (books dune_db) ∧
  (∀ k, k ≠ 1 → books d' !! k = books dune_db !! k).
Proof.
  split; [reflexivity|].
  apply (update_existing_book 1 dune2 ("Dune", "Herbert") dune_db). reflexivity.
Defined.

(** C4. When a row has the id, delete answers 200; afterwards get-by-id
    on that id answers 404 "Book not found" and list-all answers 200
    with a list that holds no record with that id, and that is the
    earlier list without the deleted record. *)
Theorem delete_existing_book (book_id : Z) (row : string * string) (d : Database) :
  books d !! book_id = Some row →
  let d' := (delete_book_route book_id d).2 in
  status_code (delete_book_route book_id d).1 = 200 ∧
  (get_book_route book_id d').1 = mkResponse 404 (detail_content "Book not found") ∧
  ∃ before after : list BookOut.t,
    (list_books_route d).1 = mkResponse 200 (books_content before) ∧
    (list_books_route d').1 = mkResponse 200 (books_content after) ∧
    Forall (λ v, BookOut.id v ≠ book_id) after ∧
    before ≡ₚ BookOut.mk row.1 row.2 book_id :: after.
Proof.
  intros Hrow d'. subst d'.
  rewrite (delete_book_route_found _ _ _ Hrow). cbn [fst snd]. split_and!.
  - done.
  - erewrite get_book_route_missing; [|cbn; apply lookup_delete_eq]. done.
  - eexists _, _. rewrite !list_books_route_spec. cbn [fst snd books]. split_and!.
    + reflexivity.
    + reflexivity.
    + apply Forall_forall. intros v [[k r] [-> Hin]]%list_elem_of_fmap.
      apply elem_of_map_to_list in Hin. cbn. intros ->.
      by rewrite lookup_delete_eq in Hin.
    + rewrite <- (map_to_list_delete _ _ _ Hrow). done.
Qed.

Lemma delete_existing_book_witness :
  books dune_db !! 1 = Some ("Dune", "Herbert") ∧
  let d' := (delete_book_route 1 dune_db).2 in
  status_code (delete_book_route 1 dune_db).1 = 200 ∧
  (get_book_route 1 d').1 = mkResponse 404 (detail_content "Book not found") ∧
  ∃ before after : list BookOut.t,
    (list_books_route dune_db).1 = mkResponse 200 (books_content before) ∧
    (list_books_route d').1 = mkResponse 200 (books_content after) ∧
    Forall (λ v, BookOut.id v ≠ 1) after ∧
    before ≡ₚ BookOut.mk ("Dune", "Herbert").1 ("Dune", "Herbert").2 1 :: after.
Proof.
  split; [reflexivity|].
  apply (delete_existing_book 1 ("Dune", "Herbert") dune_db). reflexivity.
Defined.

(** C5. On a database satisfying the store invariant, list-all after a
    create is list-all before it plus exactly one entry: the lists agree
    up to order on everything that was there, the length grows by one,
    and the added entry is the [BookOut] answered by create, whose title
    and author are those of the body. *)
Theorem list_after_create (b : BookCreate.t) (d : Database) :
  db_wf d →
  ∃ (before after : list BookOut.t) (v : BookOut.t),
    (list_books_route d).1 = mkResponse 200 (books_content before) ∧
    (create_book_route b d).1 = mkResponse 200 (book_content v) ∧
    (list_books_route (create_book_route b d).2).1 =
      mkResponse 200 (books_content after) ∧
    after ≡ₚ v :: before ∧
    length after = S (length before) ∧
    BookOut.title v = BookCreate.title b ∧
    BookOut.author v = BookCreate.author b.
Proof.
  intros Hwf. apply db_wf_fresh in Hwf.
  eexists _, _, _. rewrite create_book_route_spec, !list_books_route_spec.
  cbn [fst snd books].
  assert (map view (map_to_list (<[auto_increment d :=
            (BookCreate.title b, BookCreate.author b)]> (books d))) ≡ₚ
          view (auto_increment d, (BookCreate.title b, BookCreate.author b))
            :: map view (map_to_list (books d))) as Hperm.
  { by rewrite (map_to_list_insert _ _ _ Hwf). }
  split_and!; try reflexivity.
  - exact Hperm.
  - by rewrite Hperm.
Qed.

Lemma list_after_create_witness :
  db_wf dune_db ∧
  ∃ (before after : list BookOut.t) (v : BookOut.t),
    (list_books_route dune_db).1 = mkResponse 200 (books_content before) ∧
    (create_book_route dune2 dune_db).1 = mkResponse 200 (book_content v) ∧
    (list_books_route (create_book_route dune2 dune_db).2).1 =
      mkResponse 200 (books_content after) ∧
    after ≡ₚ v :: before ∧
    length after = S (length before) ∧
    BookOut.title v = BookCreate.title dune2 ∧
    BookOut.author v = BookCreate.author dune2.
Proof.
  assert (db_wf dune_db) as Hwf
    by (apply (bool_decide_unpack (db_wf dune_db)); vm_compute; exact I).
  split; [exact Hwf|]. apply (list_after_create dune2 dune_db Hwf).
Defined.

(** C6, as stated, fails: on the empty database, where every row (there
    is none) has a non-empty title and author, POST /books with the body
    {"title": "", "author": "Herbert"} answers 200 and leaves a row with
    an empty title. *)
Lemma create_stores_empty_title :
  let body := json_book (JString "") (JString "Herbert") in
  fields_nonempty empty_db ∧
  db_wf empty_db ∧
  (app decimal_int (POST_books body) empty_db).1 =
    mkResponse 200 (book_content (BookOut.mk "" "Herbert" 1)) ∧
  books (app decimal_int (POST_books body) empty_db).2 !! 1 = Some ("", "Herbert") ∧
  ¬ fields_nonempty (app decimal_int (POST_books body) empty_db).2.
Proof.
  cbn zeta.
  assert (books (app decimal_int
            (POST_books (json_book (JString "") (JString "Herbert"))) empty_db).2 !! 1
          = Some ("", "Herbert")) as Hrow by reflexivity.
  split_and!.
  - apply map_Forall_empty.
  - apply db_wf_empty.
  - reflexivity.
  - exact Hrow.
  - intros Hall. apply Hall in Hrow. cbn in Hrow. by destruct Hrow.
Qed.

(** C6, amended.  Every persisted Book has a unique id and a non-null
    title and author, and create, update and delete keep it so.  The
    table is keyed by id, so what could break uniqueness is a create
    that is given the id of a book already there; the invariant is that
    no row has an id at or above the id counter.  On a database where it
    holds, after any request: it holds again; and a row that is not as
    it was before is either the row of a create, under the value of the
    counter, which no row had; or the row of the id an update addresses,
    still under that id; or the row of the id a delete addresses, now
    gone.  A row is written (by create or update) only for a body that
    has [title] and [author] present as text: a null or missing one is
    never stored. *)
Theorem persisted_books_invariant (int_validator : string → option Z)
    (r : Request) (d : Database) :
  db_wf d →
  let d' := (app int_validator r d).2 in
  db_wf d' ∧
  ∀ k,
    books d' !! k = books d !! k ∨
    match r with
    | GET_books => False
    | GET_book _ => False
    | POST_books body =>
        k = auto_increment d ∧ books d !! k = None ∧ is_Some (books d' !! k) ∧
        body_well_formed body = true
    | PUT_book segment body =>
        int_validator segment = Some k ∧ is_Some (books d !! k) ∧
        is_Some (books d' !! k) ∧ body_well_formed body = true
    | DELETE_book segment =>
        int_validator segment = Some k ∧ is_Some (books d !! k) ∧
        books d' !! k = None
    end.
Proof.
  intros Hwf d'. split; [by apply app_wf|]. intros k. subst d'.
  assert (∀ body b, validate_BookCreate body = inr b → body_well_formed body = true)
    as Htext.
  { intros body b Hv. destruct (body_well_formed body) eqn:Hb; [done|].
    destruct (validate_BookCreate_malformed _ Hb) as (es & Hes & _). congruence. }
  destruct r as [|segment|body|segment body|segment];
    cbn [app]; unfold validate_book_id.
  - left. by rewrite list_books_route_spec.
  - left. destruct (int_validator segment) as [book_id|]; [|done].
    destruct (books d !! book_id) as [row|] eqn:Hrow.
    + by rewrite (get_book_route_found _ _ _ Hrow).
    + by rewrite (get_book_route_missing _ _ Hrow).
  - destruct (validate_BookCreate body) as [es|b] eqn:Hv; [by left|].
    rewrite create_book_route_spec. cbn [snd books].
    destruct (decide (k = auto_increment d)) as [->|Hk].
    + right. rewrite lookup_insert_eq. split_and!; eauto using db_wf_fresh.
    + left. by rewrite lookup_insert_ne.
  - destruct (int_validator segment) as [book_id|]; [|by left; destruct (validate_BookCreate body)].
    destruct (validate_BookCreate body) as [es|b] eqn:Hv; [by left|].
    destruct (books d !! book_id) as [row|] eqn:Hrow.
    + rewrite (update_book_route_found _ _ _ _ Hrow). cbn [snd books].
      destruct (decide (k = book_id)) as [->|Hk].
      * right. rewrite lookup_insert_eq, Hrow. split_and!; eauto.
      * left. by rewrite lookup_insert_ne.
    + left. by rewrite (update_book_route_missing _ _ _ Hrow).
  - destruct (int_validator segment) as [book_id|]; [|by left].
    destruct (books d !! book_id) as [row|] eqn:Hrow.
    + rewrite (delete_book_route_found _ _ _ Hrow). cbn [snd books].
      destruct (decide (k = book_id)) as [->|Hk].
      * right. rewrite lookup_delete_eq, Hrow. split_and!; eauto.
      * left. by rewrite lookup_delete_ne.
    + left. by rewrite (delete_book_route_missing _ _ Hrow).
Qed.

Lemma persisted_books_invariant_witness :
  db_wf two_books_db ∧
  let r := PUT_book "1" (json_book (JString "Dune") (JString "F. Herbert")) in
  let d' := (app decimal_int r two_books_db).2 in
  db_wf d' ∧
  ∀ k,
    books d' !! k = books two_books_db !! k ∨
    (decimal_int "1" = Some k ∧ is_Some (books two_books_db !! k) ∧
     is_Some (books d' !! k) ∧
     body_well_formed (json_book (JString "Dune") (JString "F. Herbert")) = true).
Proof.
  assert (db_wf two_books_db) as Hwf
    by (apply (bool_decide_unpack (db_wf two_books_db)); vm_compute; exact I).
  split; [exact Hwf|].
  apply (persisted_books_invariant decimal_int
           (PUT_book "1" (json_book (JString "Dune") (JString "F. Herbert")))
           two_books_db Hwf).
Defined.

(** C7. A request whose path id does not parse as an integer, or whose
    body lacks [title] or [author] or gives one of them a value that is
    not text, is answered 422 with a non-empty list of errors, and the
    database is exactly as before: same rows, same counter, and no call
    made on any session. *)
Theorem malformed_request_rejected (int_validator : string → option Z)
    (r : Request) (d : Database) :
  malformed int_validator r = true →
  ∃ es, es ≠ [] ∧ app int_validator r d = (mkResponse 422 (errors_content es), d).
Proof.
  destruct r as [|segment|body|segment body|segment]; cbn [malformed app].
  - discriminate.
  - intros Hbad%negb_true_iff. rewrite (validate_book_id_malformed _ _ Hbad).
    by exists [["path"; "book_id"]].
  - intros Hbad%negb_true_iff.
    destruct (validate_BookCreate_malformed _ Hbad) as (es & -> & Hes).
    by exists es.
  - intros Hbad. unfold validate_book_id, parses in *.
    destruct (int_validator segment) as [book_id|].
    + cbn in Hbad. apply negb_true_iff in Hbad.
      destruct (validate_BookCreate_malformed _ Hbad) as (es & -> & Hes).
      by exists es.
    + destruct (validate_BookCreate body) as [es|b];
        (eexists; split; [|reflexivity]); done.
  - intros Hbad%negb_true_iff. rewrite (validate_book_id_malformed _ _ Hbad).
    by exists [["path"; "book_id"]].
Qed.

Lemma malformed_request_rejected_witness :
  malformed decimal_int (PUT_book "one" (json_book (JNumber 3) (JString "Herbert"))) = true ∧
  ∃ es, es ≠ [] ∧
    app decimal_int (PUT_book "one" (json_book (JNumber 3) (JString "Herbert"))) dune_db =
      (mkResponse 422 (errors_content es), dune_db).
Proof.
  split; [reflexivity|].
  apply (malformed_request_rejected decimal_int
           (PUT_book "one" (json_book (JNumber 3) (JString "Herbert"))) dune_db).
  reflexivity.
Defined.

(** C8. DELETE /books/{id} for an id that has a row answers 200 with
    the message "Book(id=" followed by the requested id followed by
    ") deleted succesfully"; the id is written in decimal, so that it
    reads back as the same integer. *)
Theorem delete_book_message (int_validator : string → option Z)
    (segment : string) (book_id : Z) (row : string * string) (d : Database) :
  int_validator segment = Some book_id →
  books d !! book_id = Some row →
  (app int_validator (DELETE_book segment) d).1 =
    mkResponse 200
      (message_content ("Book(id=" +:+ pretty book_id +:+ ") deleted succesfully")) ∧
  decimal_int (pretty book_id) = Some book_id.
Proof.
  intros Hid Hrow. split; [|apply decimal_int_pretty].
  cbn [app]. unfold validate_book_id. rewrite Hid.
  by rewrite (delete_book_route_found _ _ _ Hrow).
Qed.

Lemma delete_book_message_witness :
  decimal_int "1" = Some 1 ∧
  books dune_db !! 1 = Some ("Dune", "Herbert") ∧
  (app decimal_int (DELETE_book "1") dune_db).1 =
    mkResponse 200 (message_content "Book(id=1) deleted succesfully") ∧
  decimal_int (pretty 1) = Some 1.
Proof.
  split; [reflexivity|]. split; [reflexivity|].
  apply (delete_book_message decimal_int "1" 1 ("Dune", "Herbert") dune_db);
    reflexivity.
Defined.

(** C9. POST /books with a body that has a text [title] and a text
    [author] answers 200, not 201, with a [BookOut] made of the id the
    store assigned and the submitted title and author. *)
Theorem create_book_answers_200 (int_validator : string → option Z)
    (o : gmap string json) (t a : string) (d : Database) :
  o !! "title" = Some (JString t) →
  o !! "author" = Some (JString a) →
  let response := (app int_validator (POST_books (Some (JObject o))) d).1 in
  response = mkResponse 200 (book_content (BookOut.mk t a (auto_increment d))) ∧
  status_code response ≠ 201 ∧
  books (app int_validator (POST_books (Some (JObject o))) d).2 !! auto_increment d =
    Some (t, a).
Proof.
  intros Ht Ha response. subst response. cbn [app].
  rewrite (validate_BookCreate_well_formed _ _ _ Ht Ha).
  rewrite create_book_route_spec. cbn. split_and!; [done|done|].
  apply lookup_insert_eq.
Qed.

Lemma create_book_answers_200_witness :
  let o : gmap string json := <["title" := JString "Dune"]> (<["author" := JString "Herbert"]> ∅) in
  o !! "title" = Some (JString "Dune") ∧
  o !! "author" = Some (JString "Herbert") ∧
  let response := (app decimal_int (POST_books (Some (JObject o))) empty_db).1 in
  response = mkResponse 200 (book_content (BookOut.mk "Dune" "Herbert" 1)) ∧
  status_code response ≠ 201 ∧
  books (app decimal_int (POST_books (Some (JObject o))) empty_db).2 !! 1 =
    Some ("Dune", "Herbert").
Proof.
  cbn zeta. split; [reflexivity|]. split; [reflexivity|].
  apply (create_book_answers_200 decimal_int
           (<["title" := JString "Dune"]> (<["author" := JString "Herbert"]> ∅))
           "Dune" "Herbert" empty_db); reflexivity.
Defined.

(** C10. PUT /books/{id} with a body that lacks a text [title] or a text
    [author], for an id that parses and has no row, answers 422 and not
    404; the existence lookup is not made (no call on any session) and
    the database is as before. *)
Theorem update_malformed_before_not_found (int_validator : string → option Z)
    (segment : string) (book_id : Z) (body : option json) (d : Database) :
  body_well_formed body = false →
  int_validator segment = Some book_id →
  books d !! book_id = None →
  let result := app int_validator (PUT_book segment body) d in
  status_code result.1 = 422 ∧
  status_code result.1 ≠ 404 ∧
  result.2 = d.
Proof.
  intros Hbad Hid Hrow result. subst result. cbn [app].
  unfold validate_book_id. rewrite Hid.
  destruct (validate_BookCreate_malformed _ Hbad) as (es & -> & Hes).
  done.
Qed.

Lemma update_malformed_before_not_found_witness :
  body_well_formed (json_book (JString "Dune") JNull) = false ∧
  decimal_int "9999" = Some 9999 ∧
  books dune_db !! 9999 = None ∧
  let result := app decimal_int (PUT_book "9999" (json_book (JString "Dune") JNull)) dune_db in
  status_code result.1 = 422 ∧
  status_code result.1 ≠ 404 ∧
  result.2 = dune_db.
Proof.
  split; [reflexivity|]. split; [reflexivity|]. split; [reflexivity|].
  apply (update_malformed_before_not_found decimal_int "9999" 9999
           (json_book (JString "Dune") JNull) dune_db); reflexivity.
Defined.

(** ** The scenarios of the specification *)

(** POST, GET, PUT, DELETE, GET on a new database. *)
Example scenario_dune :
  let d0 := empty_db in
  let r1 := app decimal_int (POST_books (json_book (JString "Dune") (JString "Herbert"))) d0 in
  let r2 := app decimal_int (GET_book "1") r1.2 in
  let r3 := app decimal_int (PUT_book "1" (json_book (JString "Dune") (JString "F. Herbert"))) r2.2 in
  let r4 := app decimal_int (DELETE_book "1") r3.2 in
  let r5 := app decimal_int (GET_book "1") r4.2 in
  r1.1 = mkResponse 200 (book_content (BookOut.mk "Dune" "Herbert" 1)) ∧
  r2.1 = mkResponse 200 (book_content (BookOut.mk "Dune" "Herbert" 1)) ∧
  r3.1 = mkResponse 200 (book_content (BookOut.mk "Dune" "F. Herbert" 1)) ∧
  r4.1 = mkResponse 200 (message_content "Book(id=1) deleted succesfully") ∧
  r5.1 = mkResponse 404 (detail_content "Book not found").
Proof. cbn zeta. split_and!; reflexivity. Qed.

(** GET /books/9999 on an empty store. *)
Example scenario_missing :
  (app decimal_int (GET_book "9999") empty_db).1 =
    mkResponse 404 (detail_content "Book not found").
Proof. reflexivity. Qed.

(** ** Further properties of the routes *)

(** The answer of get-by-id is decided by the row under the id. *)
Lemma get_book_route_response (book_id : Z) (d : Database) :
  (get_book_route book_id d).1 =
    match books d !! book_id with
    | Some row => ok (book_content (view (book_id, row)))
    | None => book_not_found
    end.
Proof.
  destruct (books d !! book_id) as [row|] eqn:Hrow.
  - by rewrite (get_book_route_found _ _ _ Hrow).
  - by rewrite (get_book_route_missing _ _ Hrow).
Qed.

Lemma get_book_route_db (book_id : Z) (d : Database) :
  (get_book_route book_id d).2 = called [query_first_call book_id] d.
Proof.
  destruct (books d !! book_id) as [row|] eqn:Hrow.
  - by rewrite (get_book_route_found _ _ _ Hrow).
  - by rewrite (get_book_route_missing _ _ Hrow).
Qed.

Lemma update_book_route_books (book_id : Z) (b : BookCreate.t) (d : Database) :
  books (update_book_route book_id b d).2 =
    match books d !! book_id with
    | Some _ => <[book_id := (BookCreate.title b, BookCreate.author b)]> (books d)
    | None => books d
    end.
Proof.
  destruct (books d !! book_id) as [row|] eqn:Hrow.
  - by rewrite (update_book_route_found _ _ _ _ Hrow).
  - by rewrite (update_book_route_missing _ _ _ Hrow).
Qed.

Lemma update_book_route_counter (book_id : Z) (b : BookCreate.t) (d : Database) :
  auto_increment (update_book_route book_id b d).2 = auto_increment d.
Proof.
  destruct (books d !! book_id) as [row|] eqn:Hrow.
  - by rewrite (update_book_route_found _ _ _ _ Hrow).
  - by rewrite (update_book_route_missing _ _ _ Hrow).
Qed.

Lemma delete_book_route_books (book_id : Z) (d : Database) :
  books (delete_book_route book_id d).2 = delete book_id (books d).
Proof.
  destruct (books d !! book_id) as [row|] eqn:Hrow.
  - by rewrite (delete_book_route_found _ _ _ Hrow).
  - rewrite (delete_book_route_missing _ _ Hrow). cbn. by rewrite delete_id.
Qed.

Lemma delete_book_route_counter (book_id : Z) (d : Database) :
  auto_increment (delete_book_route book_id d).2 = auto_increment d.
Proof.
  destruct (books d !! book_id) as [row|] eqn:Hrow.
  - by rewrite (delete_book_route_found _ _ _ Hrow).
  - by rewrite (delete_book_route_missing _ _ Hrow).
Qed.

(** X1. GET /books never fails: on every database it answers 200 with a
    list in which a record occurs exactly when the table has that row;
    no id occurs twice, there are as many records as rows (none exactly
    when the table is empty), and the rows and the id counter are left
    as they were. *)
Theorem list_books_exact (d : Database) :
  ∃ l : list BookOut.t,
    (list_books_route d).1 = mkResponse 200 (books_content l) ∧
    (∀ v, v ∈ l ↔
          books d !! BookOut.id v = Some (BookOut.title v, BookOut.author v)) ∧
    NoDup (BookOut.id <$> l) ∧
    length l = size (books d) ∧
    (l = [] ↔ books d = ∅) ∧
    books (list_books_route d).2 = books d ∧
    auto_increment (list_books_route d).2 = auto_increment d.
Proof.
  exists (view <$> map_to_list (books d)). rewrite list_books_route_spec.
  split_and!; try done.
  - intros [t a k]. rewrite list_elem_of_fmap. cbn. split.
    + intros [[k' [t' a']] [Heq Hin]]. apply elem_of_map_to_list in Hin.
      cbv in Heq. by simplify_eq.
    + intros Hrow. exists (k, (t, a)). split; [done|].
      by apply elem_of_map_to_list.
  - rewrite <- list_fmap_compose. apply NoDup_fst_map_to_list.
  - by rewrite length_fmap, length_map_to_list.
  - rewrite <- map_to_list_empty_iff. split.
    + apply fmap_nil_inv.
    + by intros ->.
Qed.

(** X2. Get-by-id and list-all agree: get answers 200 with [v] exactly
    when list-all holds [v] and [v] has the requested id, and 404
    exactly when no listed record has that id; get changes neither the
    rows nor the id counter, found or not. *)
Theorem get_book_agrees_with_list (book_id : Z) (d : Database) :
  ∃ l : list BookOut.t,
    (list_books_route d).1 = mkResponse 200 (books_content l) ∧
    (∀ v, (get_book_route book_id d).1 = mkResponse 200 (book_content v) ↔
          v ∈ l ∧ BookOut.id v = book_id) ∧
    ((get_book_route book_id d).1 = mkResponse 404 (detail_content "Book not found") ↔
     book_id ∉ BookOut.id <$> l) ∧
    books (get_book_route book_id d).2 = books d ∧
    auto_increment (get_book_route book_id d).2 = auto_increment d.
Proof.
  exists (view <$> map_to_list (books d)). rewrite list_books_route_spec.
  rewrite get_book_route_response, get_book_route_db.
  assert (∀ v, v ∈ view <$> map_to_list (books d) ↔
            books d !! BookOut.id v = Some (BookOut.title v, BookOut.author v))
    as Hin.
  { intros [t a k]. rewrite list_elem_of_fmap. cbn. split.
    - intros [[k' [t' a']] [Heq Hin]]. apply elem_of_map_to_list in Hin.
      cbv in Heq. by simplify_eq.
    - intros Hrow. exists (k, (t, a)). split; [done|].
      by apply elem_of_map_to_list. }
  split_and!; try done.
  - intros [t a k]. rewrite Hin. cbn.
    destruct (books d !! book_id) as [[t' a']|] eqn:Hrow; cbv [ok book_not_found view]; cbn.
    + split.
      * intros [= -> -> ->]. done.
      * intros [Hk ->]. rewrite Hrow in Hk. by simplify_eq.
    + split; [done|]. intros [Hk ->]. by rewrite Hrow in Hk.
  - rewrite list_elem_of_fmap.
    destruct (books d !! book_id) as [[t' a']|] eqn:Hrow; cbv [ok book_not_found view]; cbn.
    + split; [done|]. intros Hno. destruct Hno.
      exists (BookOut.mk t' a' book_id). split; [done|]. by apply Hin.
    + split; [|done]. intros _ [v [-> Hv]]. apply Hin in Hv. by rewrite Hrow in Hv.
Qed.

Lemma validate_BookCreate_accepted (body : option json) :
  body_well_formed body = true → ∃ b, validate_BookCreate body = inr b.
Proof.
  unfold body_well_formed, has_text, validate_BookCreate, str_field.
  destruct body as [[| | | | |o]|]; try done.
  destruct (o !! "title") as [[]|], (o !! "author") as [[]|]; cbn;
    try discriminate; intros _; by eexists.
Qed.

Lemma update_book_route_status (book_id : Z) (b : BookCreate.t) (d : Database) :
  status_code (update_book_route book_id b d).1 =
    match books d !! book_id with Some _ => 200 | None => 404 end.
Proof.
  destruct (books d !! book_id) as [row|] eqn:Hrow.
  - by rewrite (update_book_route_found _ _ _ _ Hrow).
  - by rewrite (update_book_route_missing _ _ _ Hrow).
Qed.

Lemma delete_book_route_status (book_id : Z) (d : Database) :
  status_code (delete_book_route book_id d).1 =
    match books d !! book_id with Some _ => 200 | None => 404 end.
Proof.
  destruct (books d !! book_id) as [row|] eqn:Hrow.
  - by rewrite (delete_book_route_found _ _ _ Hrow).
  - by rewrite (delete_book_route_missing _ _ Hrow).
Qed.

Lemma get_book_route_status (book_id : Z) (d : Database) :
  status_code (get_book_route book_id d).1 =
    match books d !! book_id with Some _ => 200 | None => 404 end.
Proof. rewrite get_book_route_response. by destruct (books d !! book_id). Qed.

(** The status in each case of a request. *)
Lemma app_status_cases (int_validator : string → option Z) (r : Request)
    (d : Database) :
  status_code (app int_validator r d).1 =
    if malformed int_validator r then 422
    else match target int_validator r with
         | Some book_id =>
             match books d !! book_id with
             | Some _ => 200
             | None => 404
             end
         | None => 200
         end.
Proof.
  destruct r as [|segment|body|segment body|segment];
    cbn [app malformed target]; unfold parses, validate_book_id.
  - by rewrite list_books_route_spec.
  - destruct (int_validator segment) as [book_id|]; [|done].
    apply get_book_route_status.
  - destruct (body_well_formed body) eqn:Hbody; cbn.
    + destruct (validate_BookCreate_accepted _ Hbody) as [b ->].
      by rewrite create_book_route_spec.
    + by destruct (validate_BookCreate_malformed _ Hbody) as (es & -> & _).
  - destruct (int_validator segment) as [book_id|],
      (body_well_formed body) eqn:Hbody; cbn.
    + destruct (validate_BookCreate_accepted _ Hbody) as [b ->].
      apply update_book_route_status.
    + by destruct (validate_BookCreate_malformed _ Hbody) as (es & -> & _).
    + by destruct (validate_BookCreate body).
    + by destruct (validate_BookCreate body).
  - destruct (int_validator segment) as [book_id|]; [|done].
    apply delete_book_route_status.
Qed.

(** X3. Which requests are refused, on every database: the answer is
    422 exactly when the request is malformed (a path id that does not
    convert, or a body without a text title or author), and 404 exactly
    when the request is not malformed and addresses an id that has no
    row. *)
Theorem status_422_and_404 (int_validator : string → option Z) (r : Request)
    (d : Database) :
  (status_code (app int_validator r d).1 = 422 ↔ malformed int_validator r = true) ∧
  (status_code (app int_validator r d).1 = 404 ↔
   malformed int_validator r = false ∧
   ∃ k, target int_validator r = Some k ∧ books d !! k = None).
Proof.
  rewrite app_status_cases.
  destruct (malformed int_validator r); [split; split; [done|done|done|by intros [? _]]|].
  destruct (target int_validator r) as [k|].
  - destruct (books d !! k) as [row|] eqn:Hrow; (split; split; try done).
    + intros [_ (k' & [= <-] & Hnone)]. by rewrite Hrow in Hnone.
    + intros _. split; [done|]. by exists k.
  - split; split; try done. by intros [_ (k' & ? & _)].
Qed.

(** The id counter never goes down. *)
Lemma app_counter_mono (int_validator : string → option Z) (r : Request)
    (d : Database) :
  auto_increment d ≤ auto_increment (app int_validator r d).2.
Proof.
  destruct r as [|segment|body|segment body|segment]; cbn [app].
  - by rewrite list_books_route_spec.
  - destruct (validate_book_id _ _); [done|]. by rewrite get_book_route_db.
  - destruct (validate_BookCreate _); [done|].
    rewrite create_book_route_spec. cbn. lia.
  - destruct (validate_book_id _ _), (validate_BookCreate _); try done.
    by rewrite update_book_route_counter.
  - destruct (validate_book_id _ _); [done|]. by rewrite delete_book_route_counter.
Qed.

Lemma serve_all_counter_mono (int_validator : string → option Z)
    (rs : list Request) (d : Database) :
  auto_increment d ≤ auto_increment (serve_all int_validator rs d).
Proof.
  revert d. induction rs as [|r rs IH]; intros d; [done|].
  cbn. etrans; [apply (app_counter_mono int_validator r)|apply IH].
Qed.

(** X4. An id is never handed out twice: on a database satisfying the
    store invariant, if a row has id [k], then after any sequence of
    requests (deletions of [k] included) a create is answered with an id
    greater than [k]. *)
Theorem ids_never_reused (int_validator : string → option Z) (rs : list Request)
    (b : BookCreate.t) (k : Z) (d : Database) :
  db_wf d →
  is_Some (books d !! k) →
  ∃ v : BookOut.t,
    (create_book_route b (serve_all int_validator rs d)).1 =
      mkResponse 200 (book_content v) ∧
    k < BookOut.id v.
Proof.
  intros Hwf [row Hrow]. rewrite create_book_route_spec. eexists. split; [done|].
  cbn. apply Hwf in Hrow. cbn in Hrow.
  pose proof (serve_all_counter_mono int_validator rs d). lia.
Qed.

Lemma ids_never_reused_witness :
  db_wf dune_db ∧
  is_Some (books dune_db !! 1) ∧
  ∃ v : BookOut.t,
    (create_book_route dune2 (serve_all decimal_int [DELETE_book "1"] dune_db)).1 =
      mkResponse 200 (book_content v) ∧
    1 < BookOut.id v.
Proof.
  assert (db_wf dune_db) as Hwf
    by (apply (bool_decide_unpack (db_wf dune_db)); vm_compute; exact I).
  assert (is_Some (books dune_db !! 1)) as Hrow by (by eexists).
  split; [exact Hwf|]. split; [exact Hrow|].
  apply (ids_never_reused decimal_int [DELETE_book "1"] dune2 1 dune_db Hwf Hrow).
Defined.

(** X5. Deleting twice: after a delete that found its row, a second
    delete of the same id answers 404 "Book not found" and leaves the
    rows and the counter as the first delete left them. *)
Theorem delete_twice (book_id : Z) (row : string * string) (d : Database) :
  books d !! book_id = Some row →
  let d1 := (delete_book_route book_id d).2 in
  status_code (delete_book_route book_id d).1 = 200 ∧
  (delete_book_route book_id d1).1 = mkResponse 404 (detail_content "Book not found") ∧
  books (delete_book_route book_id d1).2 = books d1 ∧
  auto_increment (delete_book_route book_id d1).2 = auto_increment d1.
Proof.
  intros Hrow d1.
  assert (books d1 !! book_id = None) as Hgone.
  { subst d1. rewrite delete_book_route_books. apply lookup_delete_eq. }
  split_and!.
  - by rewrite (delete_book_route_found _ _ _ Hrow).
  - by rewrite (delete_book_route_missing _ _ Hgone).
  - by rewrite (delete_book_route_missing _ _ Hgone).
  - by rewrite (delete_book_route_missing _ _ Hgone).
Qed.

Lemma delete_twice_witness :
  books dune_db !! 1 = Some ("Dune", "Herbert") ∧
  let d1 := (delete_book_route 1 dune_db).2 in
  status_code (delete_book_route 1 dune_db).1 = 200 ∧
  (delete_book_route 1 d1).1 = mkResponse 404 (detail_content "Book not found") ∧
  books (delete_book_route 1 d1).2 = books d1 ∧
  auto_increment (delete_book_route 1 d1).2 = auto_increment d1.
Proof.
  split; [reflexivity|].
  apply (delete_twice 1 ("Dune", "Herbert") dune_db). reflexivity.
Defined.

(** X6. The last update wins: on an existing id, an update followed by
    a second update answers, and leaves the rows and the counter,
    exactly as the second update alone would. *)
Theorem update_last_write_wins (book_id : Z) (b1 b2 : BookCreate.t)
    (row : string * string) (d : Database) :
  books d !! book_id = Some row →
  let d1 := (update_book_route book_id b1 d).2 in
  (update_book_route book_id b2 d1).1 = (update_book_route book_id b2 d).1 ∧
  books (update_book_route book_id b2 d1).2 = books (update_book_route book_id b2 d).2 ∧
  auto_increment (update_book_route book_id b2 d1).2 =
    auto_increment (update_book_route book_id b2 d).2.
Proof.
  intros Hrow d1.
  assert (books d1 !! book_id = Some (BookCreate.title b1, BookCreate.author b1))
    as Hrow1.
  { subst d1. rewrite update_book_route_books, Hrow. apply lookup_insert_eq. }
  rewrite (update_book_route_found _ _ _ _ Hrow1),
    (update_book_route_found _ _ _ _ Hrow).
  cbn [fst snd books auto_increment]. split_and!; [done| |].
  - subst d1. rewrite update_book_route_books, Hrow. apply insert_insert_eq.
  - subst d1. apply update_book_route_counter.
Qed.

Lemma update_last_write_wins_witness :
  books dune_db !! 1 = Some ("Dune", "Herbert") ∧
  let d1 := (update_book_route 1 dune dune_db).2 in
  (update_book_route 1 dune2 d1).1 = (update_book_route 1 dune2 dune_db).1 ∧
  books (update_book_route 1 dune2 d1).2 = books (update_book_route 1 dune2 dune_db).2 ∧
  auto_increment (update_book_route 1 dune2 d1).2 =
    auto_increment (update_book_route 1 dune2 dune_db).2.
Proof.
  split; [reflexivity|].
  apply (update_last_write_wins 1 dune dune2 ("Dune", "Herbert") dune_db).
  reflexivity.
Defined.

(** X7. An update that submits the title and author the row already has
    answers 200 with the record and leaves the table as it was. *)
Theorem update_same_values (book_id : Z) (b : BookCreate.t) (d : Database) :
  books d !! book_id = Some (BookCreate.title b, BookCreate.author b) →
  (update_book_route book_id b d).1 =
    mkResponse 200
      (book_content (BookOut.mk (BookCreate.title b) (BookCreate.author b) book_id)) ∧
  books (update_book_route book_id b d).2 = books d ∧
  auto_increment (update_book_route book_id b d).2 = auto_increment d.
Proof.
  intros Hrow. rewrite (update_book_route_found _ _ _ _ Hrow).
  cbn [fst snd books auto_increment]. split_and!; [done| |done].
  by apply insert_id.
Qed.

Lemma update_same_values_witness :
  books dune_db !! 1 = Some (BookCreate.title dune, BookCreate.author dune) ∧
  (update_book_route 1 dune dune_db).1 =
    mkResponse 200
      (book_content (BookOut.mk (BookCreate.title dune) (BookCreate.author dune) 1)) ∧
  books (update_book_route 1 dune dune_db).2 = books dune_db ∧
  auto_increment (update_book_route 1 dune dune_db).2 = auto_increment dune_db.
Proof.
  split; [reflexivity|]. apply (update_same_values 1 dune dune_db). reflexivity.
Defined.

(** X8. Create then delete: on a database satisfying the store
    invariant, deleting the id that a create was answered with answers
    200 and gives back the rows there were before the create; the id
    counter stays one further, so that the id is not handed out again. *)
Theorem create_then_delete (b : BookCreate.t) (d : Database) :
  db_wf d →
  ∃ v : BookOut.t,
    (create_book_route b d).1 = mkResponse 200 (book_content v) ∧
    let d2 := (delete_book_route (BookOut.id v) (create_book_route b d).2).2 in
    status_code (delete_book_route (BookOut.id v) (create_book_route b d).2).1 = 200 ∧
    books d2 = books d ∧
    auto_increment d2 = auto_increment d + 1.
Proof.
  intros Hwf%db_wf_fresh. rewrite create_book_route_spec. eexists. split; [done|].
  cbn [fst snd BookOut.id view].
  rewrite delete_book_route_status, delete_book_route_books,
    delete_book_route_counter.
  cbn [books auto_increment]. rewrite lookup_insert_eq. split_and!; [done| |done].
  by apply delete_insert_id.
Qed.

Lemma create_then_delete_witness :
  db_wf dune_db ∧
  ∃ v : BookOut.t,
    (create_book_route dune2 dune_db).1 = mkResponse 200 (book_content v) ∧
    let d2 := (delete_book_route (BookOut.id v) (create_book_route dune2 dune_db).2).2 in
    status_code (delete_book_route (BookOut.id v) (create_book_route dune2 dune_db).2).1 = 200 ∧
    books d2 = books dune_db ∧
    auto_increment d2 = auto_increment dune_db + 1.
Proof.
  assert (db_wf dune_db) as Hwf
    by (apply (bool_decide_unpack (db_wf dune_db)); vm_compute; exact I).
  split; [exact Hwf|]. apply (create_then_delete dune2 dune_db Hwf).
Defined.

(** X9. Other ids are not touched: what get-by-id answers for an id is
    the same before and after an update or a delete of a different id,
    and before and after a create, for every id but the one the create
    assigns. *)
Theorem other_ids_untouched (k book_id : Z) (b : BookCreate.t) (d : Database) :
  k ≠ book_id →
  (get_book_route k (update_book_route book_id b d).2).1 = (get_book_route k d).1 ∧
  (get_book_route k (delete_book_route book_id d).2).1 = (get_book_route k d).1 ∧
  (k ≠ auto_increment d →
   (get_book_route k (create_book_route b d).2).1 = (get_book_route k d).1).
Proof.
  intros Hk. rewrite !get_book_route_response.
  rewrite update_book_route_books, delete_book_route_books. split_and!.
  - destruct (books d !! book_id); [|done]. by rewrite lookup_insert_ne.
  - by rewrite lookup_delete_ne.
  - intros Hnew. rewrite create_book_route_spec. cbn.
    by rewrite lookup_insert_ne.
Qed.

Lemma other_ids_untouched_witness :
  (1 : Z) ≠ 2 ∧
  (get_book_route 1 (update_book_route 2 dune2 two_books_db).2).1 =
    (get_book_route 1 two_books_db).1 ∧
  (get_book_route 1 (delete_book_route 2 two_books_db).2).1 =
    (get_book_route 1 two_books_db).1 ∧
  (1 ≠ auto_increment two_books_db →
   (get_book_route 1 (create_book_route dune2 two_books_db).2).1 =
     (get_book_route 1 two_books_db).1).
Proof.
  assert ((1 : Z) ≠ 2) as Hne by lia.
  split; [exact Hne|]. apply (other_ids_untouched 1 2 dune2 two_books_db Hne).
Defined.

(** X10. What each method can do to the set of ids, on every database
    and for every request, malformed ones included: GET leaves the
    table as it is; PUT leaves the set of ids as it is; DELETE adds no
    id and removes none but the one it addresses; POST removes no id and
    adds none but the value of the id counter. *)
Theorem ids_by_method (int_validator : string → option Z) (r : Request)
    (d : Database) :
  let d' := (app int_validator r d).2 in
  match r with
  | GET_books => books d' = books d
  | GET_book _ => books d' = books d
  | PUT_book _ _ => dom (books d') = dom (books d)
  | DELETE_book _ =>
      dom (books d') ⊆ dom (books d) ∧
      ∀ k, k ∈ dom (books d) → k ∉ dom (books d') → target int_validator r = Some k
  | POST_books _ =>
      dom (books d) ⊆ dom (books d') ∧
      ∀ k, k ∈ dom (books d') → k ∉ dom (books d) → k = auto_increment d
  end.
Proof.
  destruct r as [|segment|body|segment body|segment];
    cbn [app target]; unfold validate_book_id.
  - by rewrite list_books_route_spec.
  - destruct (int_validator segment); [|done]. by rewrite get_book_route_db.
  - destruct (validate_BookCreate body) as [es|b]; [by split|].
    rewrite create_book_route_spec. cbn. rewrite dom_insert_L. split.
    + apply union_subseteq_r.
    + intros k [Hk|Hk]%elem_of_union Hout; [|done]. by apply elem_of_singleton in Hk.
  - destruct (int_validator segment) as [book_id|],
      (validate_BookCreate body) as [es|b]; try done.
    rewrite update_book_route_books.
    destruct (books d !! book_id) as [row|] eqn:Hrow; [|done].
    apply dom_insert_lookup_L. by exists row.
  - destruct (int_validator segment) as [book_id|]; [|by split].
    rewrite delete_book_route_books, dom_delete_L. split.
    + by apply subseteq_difference_l.
    + intros k Hin Hout. f_equal. destruct (decide (book_id = k)) as [|Hne]; [done|].
      destruct Hout. apply elem_of_difference. split; [done|].
      rewrite elem_of_singleton. congruence.
Qed.

Lemma new_calls_called (cs : list Call) (d : Database) :
  new_calls d (called cs d) = cs.
Proof. unfold new_calls, called. cbn. apply drop_app_length. Qed.

Lemma new_calls_same (d : Database) : new_calls d d = [].
Proof. unfold new_calls. by rewrite drop_all. Qed.

(** X11. One commit per successful write, none otherwise: a request
    makes [db.commit()] once when it is a POST, PUT or DELETE answered
    200, and never when it is a GET or is answered 404 or 422. *)
Theorem commits_once_per_write (int_validator : string → option Z) (r : Request)
    (d : Database) :
  commits (new_calls d (app int_validator r d).2) =
    if writes r && bool_decide (status_code (app int_validator r d).1 = 200)
    then 1%nat else 0%nat.
Proof.
  destruct r as [|segment|body|segment body|segment];
    cbn [app writes andb]; unfold validate_book_id, unprocessable.
  - rewrite list_books_route_spec. cbn [fst snd]. by rewrite new_calls_called.
  - destruct (int_validator segment); cbn [snd]; [|by rewrite new_calls_same].
    by rewrite get_book_route_db, new_calls_called.
  - destruct (validate_BookCreate body) as [es|b]; cbn [fst snd].
    + by rewrite new_calls_same.
    + rewrite create_book_route_spec. cbn [fst snd].
      change (mkDatabase ?t ?n (calls d ++ ?cs)) with (mkDatabase t n (calls d ++ cs)).
      unfold new_calls. cbn [calls]. by rewrite drop_app_length.
  - destruct (int_validator segment) as [book_id|],
      (validate_BookCreate body) as [es|b]; cbn [fst snd];
      try by rewrite new_calls_same.
    destruct (books d !! book_id) as [row|] eqn:Hrow.
    + rewrite (update_book_route_found _ _ _ _ Hrow). cbn [fst snd].
      unfold new_calls. cbn [calls]. by rewrite drop_app_length.
    + rewrite (update_book_route_missing _ _ _ Hrow). cbn [fst snd].
      by rewrite new_calls_called.
  - destruct (int_validator segment) as [book_id|]; cbn [fst snd];
      [|by rewrite new_calls_same].
    destruct (books d !! book_id) as [row|] eqn:Hrow.
    + rewrite (delete_book_route_found _ _ _ Hrow). cbn [fst snd].
      unfold new_calls. cbn [calls]. by rewrite drop_app_length.
    + rewrite (delete_book_route_missing _ _ Hrow). cbn [fst snd].
      by rewrite new_calls_called.
Qed.



(** X13. Only [title] and [author] of the body are read: two JSON
    objects that agree on these two entries get the same answer and
    leave the same database, for POST and for PUT; any other entry of
    the body is ignored. *)
Theorem body_read_by_title_and_author (int_validator : string → option Z)
    (o o' : gmap string json) (segment : string) (d : Database) :
  o !! "title" = o' !! "title" →
  o !! "author" = o' !! "author" →
  app int_validator (POST_books (Some (JObject o))) d =
    app int_validator (POST_books (Some (JObject o'))) d ∧
  app int_validator (PUT_book segment (Some (JObject o))) d =
    app int_validator (PUT_book segment (Some (JObject o'))) d.
Proof.
  intros Ht Ha.
  assert (validate_BookCreate (Some (JObject o)) =
          validate_BookCreate (Some (JObject o'))) as Hsame.
  { unfold validate_BookCreate, str_field. by rewrite Ht, Ha. }
  cbn [app]. by rewrite Hsame.
Qed.

Lemma body_read_by_title_and_author_witness :
  let o : gmap string json :=
    <["title" := JString "Dune"]> (<["author" := JString "Herbert"]> ∅) in
  let o' : gmap string json := <["id" := JNumber 7]> (<["year" := JNumber 1965]> o) in
  o !! "title" = o' !! "title" ∧
  o !! "author" = o' !! "author" ∧
  app decimal_int (POST_books (Some (JObject o))) dune_db =
    app decimal_int (POST_books (Some (JObject o'))) dune_db ∧
  app decimal_int (PUT_book "1" (Some (JObject o))) dune_db =
    app decimal_int (PUT_book "1" (Some (JObject o'))) dune_db.
Proof.
  cbn zeta. split; [reflexivity|]. split; [reflexivity|].
  apply (body_read_by_title_and_author decimal_int
           (<["title" := JString "Dune"]> (<["author" := JString "Herbert"]> ∅))
           (<["id" := JNumber 7]> (<["year" := JNumber 1965]>
              (<["title" := JString "Dune"]> (<["author" := JString "Herbert"]> ∅))))
           "1" dune_db); reflexivity.
Defined.

Lemma create_all_counter (bs : list BookCreate.t) (d : Database) :
  auto_increment (create_all bs d) = auto_increment d + Z.of_nat (length bs).
Proof.
  revert d. induction bs as [|b bs IH]; intros d; cbn [create_all length].
  - lia.
  - rewrite IH, create_book_route_spec. cbn. lia.
Qed.

Lemma create_all_below (bs : list BookCreate.t) (d : Database) (k : Z) :
  k < auto_increment d → books (create_all bs d) !! k = books d !! k.
Proof.
  revert d. induction bs as [|b bs IH]; intros d Hk; cbn [create_all]; [done|].
  rewrite IH; rewrite create_book_route_spec; cbn; [|lia].
  apply lookup_insert_ne. lia.
Qed.

(** X14. Creates in a row: after creating the bodies [bs] one after the
    other, the id counter has advanced by their number; the body at
    position [i] is found by get-by-id under the old counter plus [i],
    with its title and author; and every row with an id below the old
    counter is as it was. *)
Theorem creates_take_consecutive_ids (bs : list BookCreate.t) (d : Database) :
  auto_increment (create_all bs d) = auto_increment d + Z.of_nat (length bs) ∧
  (∀ (i : nat) b, bs !! i = Some b →
     (get_book_route (auto_increment d + Z.of_nat i) (create_all bs d)).1 =
       mkResponse 200
         (book_content (BookOut.mk (BookCreate.title b) (BookCreate.author b)
                                   (auto_increment d + Z.of_nat i)))) ∧
  (∀ k, k < auto_increment d → books (create_all bs d) !! k = books d !! k).
Proof.
  split_and!.
  - apply create_all_counter.
  - revert d. induction bs as [|b0 bs IH]; intros d i b Hi; [done|].
    cbn [create_all]. destruct i as [|i]; cbn in Hi.
    + simplify_eq. rewrite Z.add_0_r, get_book_route_response.
      rewrite create_all_below by (rewrite create_book_route_spec; cbn; lia).
      rewrite create_book_route_spec. cbn. by rewrite lookup_insert_eq.
    + specialize (IH (create_book_route b0 d).2 i b Hi).
      rewrite create_book_route_spec in IH |- *. cbn [snd auto_increment] in IH |- *.
      replace (auto_increment d + Z.of_nat (S i)) with (auto_increment d + 1 + Z.of_nat i)
        by lia.
      exact IH.
  - intros k Hk. by apply create_all_below.
Qed.

(** Appending [t] adds the length of [t]. *)
Lemma string_length_app (s t : string) :
  (String.length t + String.length s)%nat = String.length (s +:+ t).
Proof.
  induction s as [|c s IH].
  - change (EmptyString +:+ t) with t. cbn. lia.
  - change (String c s +:+ t) with (String c (s +:+ t)). cbn. rewrite <- IH. lia.
Qed.

Lemma string_app_inj_r (s1 s2 t : string) : s1 +:+ t = s2 +:+ t → s1 = s2.
Proof.
  revert s2. induction s1 as [|c s1 IH]; intros [|c2 s2] Heq.
  - done.
  - apply (f_equal String.length) in Heq.
    rewrite <- !string_length_app in Heq. cbn in Heq. lia.
  - apply (f_equal String.length) in Heq.
    rewrite <- !string_length_app in Heq. cbn in Heq. lia.
  - change (String c (s1 +:+ t) = String c2 (s2 +:+ t)) in Heq.
    injection Heq as -> Heq. f_equal. by apply IH.
Qed.

(** X15. The confirmation of a delete names its id without ambiguity:
    two deletes that found their rows and were answered with the same
    message deleted the same id. *)
Theorem delete_message_names_the_id (k1 k2 : Z) (row1 row2 : string * string)
    (d1 d2 : Database) :
  books d1 !! k1 = Some row1 →
  books d2 !! k2 = Some row2 →
  (delete_book_route k1 d1).1 = (delete_book_route k2 d2).1 →
  k1 = k2.
Proof.
  intros H1 H2. rewrite (delete_book_route_found _ _ _ H1),
    (delete_book_route_found _ _ _ H2). cbn [fst]. intros [= Heq].
  apply (inj (String.append EmptyString)) in Heq.
  apply string_app_inj_r in Heq. by apply (inj pretty) in Heq.
Qed.

Lemma delete_message_names_the_id_witness :
  books dune_db !! 1 = Some ("Dune", "Herbert") ∧
  books two_books_db !! 1 = Some ("Dune", "Herbert") ∧
  (delete_book_route 1 dune_db).1 = (delete_book_route 1 two_books_db).1 ∧
  (1 : Z) = 1.
Proof.
  split; [reflexivity|]. split; [reflexivity|]. split; [reflexivity|].
  apply (delete_message_names_the_id 1 1 ("Dune", "Herbert") ("Dune", "Herbert")
           dune_db two_books_db); reflexivity.
Defined.

Lemma db_positive_empty : db_positive empty_db.
Proof. split; [done|]. apply map_Forall_empty. Qed.

Lemma app_positive (int_validator : string → option Z) (r : Request) (d : Database) :
  db_positive d → db_positive (app int_validator r d).2.
Proof.
  intros [Hc Hk]. destruct r as [|segment|body|segment body|segment]; cbn [app].
  - by rewrite list_books_route_spec.
  - destruct (validate_book_id _ _); [done|]. by rewrite get_book_route_db.
  - destruct (validate_BookCreate _); [done|]. rewrite create_book_route_spec.
    split; cbn; [lia|]. by apply map_Forall_insert_2.
  - destruct (validate_book_id _ _) as [|book_id], (validate_BookCreate _);
      try done.
    split; [by rewrite update_book_route_counter|].
    rewrite update_book_route_books.
    destruct (books d !! book_id) as [row|] eqn:Hrow; [|done].
    apply map_Forall_insert_2; [|done]. by apply Hk in Hrow.
  - destruct (validate_book_id _ _) as [|book_id]; [done|].
    split; [by rewrite delete_book_route_counter|].
    rewrite delete_book_route_books. by apply map_Forall_delete.
Qed.

Lemma serve_all_positive (int_validator : string → option Z) (rs : list Request)
    (d : Database) :
  db_positive d → db_positive (serve_all int_validator rs d).
Proof.
  revert d. induction rs as [|r rs IH]; intros d Hd; [done|].
  cbn. by apply IH, app_positive.
Qed.

(** X16. Ids in use lie between 1 and the id counter: on the database
    reached from the empty one by any sequence of requests, an id below
    1, or not below the counter, has no row, and get-by-id, update and
    delete on it all answer 404 "Book not found". *)
Theorem ids_out_of_range_not_found (int_validator : string → option Z)
    (rs : list Request) (b : BookCreate.t) (k : Z) :
  let d := serve_all int_validator rs empty_db in
  k < 1 ∨ auto_increment d ≤ k →
  books d !! k = None ∧
  (get_book_route k d).1 = mkResponse 404 (detail_content "Book not found") ∧
  (update_book_route k b d).1 = mkResponse 404 (detail_content "Book not found") ∧
  (delete_book_route k d).1 = mkResponse 404 (detail_content "Book not found").
Proof.
  intros d Hk.
  assert (books d !! k = None) as Hrow.
  { destruct (books d !! k) as [row|] eqn:Hrow; [|done].
    pose proof (serve_all_positive int_validator rs empty_db db_positive_empty)
      as [_ Hpos].
    pose proof (serve_all_wf int_validator rs empty_db db_wf_empty) as Hwf.
    apply Hpos in Hrow as Hlo. apply Hwf in Hrow as Hhi. cbn in Hlo, Hhi.
    fold d in Hhi. lia. }
  by rewrite (get_book_route_missing _ _ Hrow),
    (update_book_route_missing _ _ _ Hrow), (delete_book_route_missing _ _ Hrow).
Qed.

Lemma ids_out_of_range_not_found_witness :
  let d := serve_all decimal_int
             [POST_books (json_book (JString "Dune") (JString "Herbert"))] empty_db in
  (0 < 1 ∨ auto_increment d ≤ 0) ∧
  books d !! 0 = None ∧
  (get_book_route 0 d).1 = mkResponse 404 (detail_content "Book not found") ∧
  (update_book_route 0 dune d).1 = mkResponse 404 (detail_content "Book not found") ∧
  (delete_book_route 0 d).1 = mkResponse 404 (detail_content "Book not found").
Proof.
  cbn zeta.
  assert (0 < 1 ∨
          auto_increment (serve_all decimal_int
            [POST_books (json_book (JString "Dune") (JString "Herbert"))] empty_db) ≤ 0)
    as Hk by (left; lia).
  split; [exact Hk|].
  apply (ids_out_of_range_not_found decimal_int
           [POST_books (json_book (JString "Dune") (JString "Herbert"))] dune 0 Hk).
Defined.

(** X17. The life of a book over HTTP, on every database: POST with a
    text title and author answers 200 with a record [v]; then, through
    any path segment that converts to [v]'s id, GET answers 200 with
    [v], PUT with a second valid body answers 200 with the same id and
    the new title and author, DELETE answers 200, and a last GET
    answers 404 "Book not found". *)
Theorem book_lifecycle (int_validator : string → option Z)
    (o o2 : gmap string json) (t a t2 a2 : string) (segment : string)
    (d : Database) :
  o !! "title" = Some (JString t) →
  o !! "author" = Some (JString a) →
  o2 !! "title" = Some (JString t2) →
  o2 !! "author" = Some (JString a2) →
  int_validator segment = Some (auto_increment d) →
  let r1 := app int_validator (POST_books (Some (JObject o))) d in
  let r2 := app int_validator (GET_book segment) r1.2 in
  let r3 := app int_validator (PUT_book segment (Some (JObject o2))) r2.2 in
  let r4 := app int_validator (DELETE_book segment) r3.2 in
  let r5 := app int_validator (GET_book segment) r4.2 in
  r1.1 = mkResponse 200 (book_content (BookOut.mk t a (auto_increment d))) ∧
  r2.1 = r1.1 ∧
  r3.1 = mkResponse 200 (book_content (BookOut.mk t2 a2 (auto_increment d))) ∧
  status_code r4.1 = 200 ∧
  r5.1 = mkResponse 404 (detail_content "Book not found").
Proof.
  intros Ht Ha Ht2 Ha2 Hid r1 r2 r3 r4 r5.
  assert (r1 = create_book_route (BookCreate.mk t a) d) as Hr1.
  { subst r1. cbn [app]. by rewrite (validate_BookCreate_well_formed _ _ _ Ht Ha). }
  assert (r2 = get_book_route (auto_increment d) r1.2) as Hr2.
  { subst r2. cbn [app]. unfold validate_book_id. by rewrite Hid. }
  assert (r3 = update_book_route (auto_increment d) (BookCreate.mk t2 a2) r2.2) as Hr3.
  { subst r3. cbn [app]. unfold validate_book_id.
    by rewrite Hid, (validate_BookCreate_well_formed _ _ _ Ht2 Ha2). }
  assert (r4 = delete_book_route (auto_increment d) r3.2) as Hr4.
  { subst r4. cbn [app]. unfold validate_book_id. by rewrite Hid. }
  assert (r5 = get_book_route (auto_increment d) r4.2) as Hr5.
  { subst r5. cbn [app]. unfold validate_book_id. by rewrite Hid. }
  clearbody r1 r2 r3 r4 r5.
  assert (books r1.2 !! auto_increment d = Some (t, a)) as Hb1.
  { rewrite Hr1, create_book_route_spec. cbn. apply lookup_insert_eq. }
  assert (books r2.2 !! auto_increment d = Some (t, a)) as Hb2.
  { by rewrite Hr2, get_book_route_db. }
  assert (books r3.2 !! auto_increment d = Some (t2, a2)) as Hb3.
  { rewrite Hr3, update_book_route_books, Hb2. apply lookup_insert_eq. }
  assert (books r4.2 !! auto_increment d = None) as Hb4.
  { rewrite Hr4, delete_book_route_books. apply lookup_delete_eq. }
  split_and!.
  - by rewrite Hr1, create_book_route_spec.
  - rewrite Hr2, get_book_route_response, Hb1, Hr1, create_book_route_spec. done.
  - by rewrite Hr3, (update_book_route_found _ _ _ _ Hb2).
  - by rewrite Hr4, delete_book_route_status, Hb3.
  - by rewrite Hr5, get_book_route_response, Hb4.
Qed.

Lemma book_lifecycle_witness :
  let o : gmap string json :=
    <["title" := JString "Dune"]> (<["author" := JString "Herbert"]> ∅) in
  let o2 : gmap string json :=
    <["title" := JString "Dune"]> (<["author" := JString "F. Herbert"]> ∅) in
  o !! "title" = Some (JString "Dune") ∧
  o !! "author" = Some (JString "Herbert") ∧
  o2 !! "title" = Some (JString "Dune") ∧
  o2 !! "author" = Some (JString "F. Herbert") ∧
  decimal_int "2" = Some (auto_increment dune_db) ∧
  let r1 := app decimal_int (POST_books (Some (JObject o))) dune_db in
  let r2 := app decimal_int (GET_book "2") r1.2 in
  let r3 := app decimal_int (PUT_book "2" (Some (JObject o2))) r2.2 in
  let r4 := app decimal_int (DELETE_book "2") r3.2 in
  let r5 := app decimal_int (GET_book "2") r4.2 in
  r1.1 = mkResponse 200 (book_content (BookOut.mk "Dune" "Herbert" (auto_increment dune_db))) ∧
  r2.1 = r1.1 ∧
  r3.1 = mkResponse 200 (book_content (BookOut.mk "Dune" "F. Herbert" (auto_increment dune_db))) ∧
  status_code r4.1 = 200 ∧
  r5.1 = mkResponse 404 (detail_content "Book not found").
Proof.
  cbn zeta. do 5 (split; [reflexivity|]).
  apply (book_lifecycle decimal_int
           (<["title" := JString "Dune"]> (<["author" := JString "Herbert"]> ∅))
           (<["title" := JString "Dune"]> (<["author" := JString "F. Herbert"]> ∅))
           "Dune" "Herbert" "Dune" "F. Herbert" "2" dune_db); reflexivity.
Defined.

(** X18. List-all around an update of an existing id: up to order, the
    list before is the old record plus some others, and the list after
    is the updated record plus the same others; so an update adds no
    entry, drops none, and changes no other one. *)
Theorem list_after_update (book_id : Z) (b2 : BookCreate.t)
    (row : string * string) (d : Database) :
  books d !! book_id = Some row →
  ∃ before after others : list BookOut.t,
    (list_books_route d).1 = mkResponse 200 (books_content before) ∧
    (list_books_route (update_book_route book_id b2 d).2).1 =
      mkResponse 200 (books_content after) ∧
    before ≡ₚ BookOut.mk row.1 row.2 book_id :: others ∧
    after ≡ₚ
      BookOut.mk (BookCreate.title b2) (BookCreate.author b2) book_id :: others ∧
    Forall (λ v, BookOut.id v ≠ book_id) others.
Proof.
  intros Hrow.
  exists (view <$> map_to_list (books d)),
    (view <$> map_to_list (books (update_book_route book_id b2 d).2)),
    (view <$> map_to_list (delete book_id (books d))).
  rewrite !list_books_route_spec, update_book_route_books, Hrow. split_and!.
  - done.
  - done.
  - by rewrite <- (map_to_list_delete _ _ _ Hrow).
  - rewrite <- insert_delete_eq.
    by rewrite map_to_list_insert by apply lookup_delete_eq.
  - apply Forall_forall. intros v [[k r] [-> Hin]]%list_elem_of_fmap.
    apply elem_of_map_to_list in Hin. cbn. intros ->.
    by rewrite lookup_delete_eq in Hin.
Qed.

Lemma list_after_update_witness :
  books dune_db !! 1 = Some ("Dune", "Herbert") ∧
  ∃ before after others : list BookOut.t,
    (list_books_route dune_db).1 = mkResponse 200 (books_content before) ∧
    (list_books_route (update_book_route 1 dune2 dune_db).2).1 =
      mkResponse 200 (books_content after) ∧
    before ≡ₚ BookOut.mk ("Dune", "Herbert").1 ("Dune", "Herbert").2 1 :: others ∧
    after ≡ₚ
      BookOut.mk (BookCreate.title dune2) (BookCreate.author dune2) 1 :: others ∧
    Forall (λ v, BookOut.id v ≠ 1) others.
Proof.
  split; [reflexivity|].
  apply (list_after_update 1 dune2 ("Dune", "Herbert") dune_db). reflexivity.
Defined.
